(** * datasapling: the synthetic-table generator of [src/main.py]

    A shallow embedding of [DataGenerator] (configuration loading, the
    global/per-dataset merge, the column builder and the writer loop) and
    the properties of it that the specification states.

    Python objects that the program reads from YAML are modelled by [value];
    dictionaries keep their insertion order, so they are association lists
    with Python's assignment discipline ([od_set]: overwrite in place or
    append).  Exceptions are the [Raise] branch of [result]; the console,
    the output directory and the written files are an event trace. *)

From Stdlib Require Import Ascii.
From stdpp Require Import base tactics option strings numbers list.

#[local] Set Warnings "-clear-no-such-hyp".

Local Open Scope Z_scope.

(** ** Exceptions and results *)

Inductive exn : Set :=
| AttributeError
| TypeError
| KeyError
| ValueError
| OSError
| YAMLError.

Inductive result (A : Type) : Type :=
| Ok (a : A)
| Raise (e : exn).
Arguments Ok {A} a.
Arguments Raise {A} e.

Definition rbind {A B} (r : result A) (k : A → result B) : result B :=
  match r with
  | Ok a => k a
  | Raise e => Raise e
  end.

#[global] Instance result_ret : MRet result := @Ok.
#[global] Instance result_bind : MBind result := fun A B k r => rbind r k.

(** ** Python values *)

(** Hashable scalars, as used for dictionary keys.  Python hashes [True] and
    [1] (and [False] and [0]) to the same key, so booleans are stored as the
    integer they equal. *)
Inductive key : Set :=
| KNone
| KInt (n : Z)
| KStr (s : string).

#[global] Instance key_eq_dec : EqDecision key.
Proof. solve_decision. Defined.

(** What [yaml.safe_load] can return.  Floats, dates and sets ([!!set]) are
    left out.  A set, unlike the scalars here, has [copy] and [update]:
    what is said below of values that are not mappings is said of null,
    booleans, integers, strings and lists. *)
#[warnings="-register-all"]
Inductive value : Type :=
| VNone
| VBool (b : bool)
| VInt (n : Z)
| VStr (s : string)
| VList (l : list value)
| VDict (d : list (key * value)).

(** Insertion-ordered dictionaries. *)
Definition odict (V : Type) : Type := list (key * V).

Fixpoint od_get {V} (k : key) (d : odict V) : option V :=
  match d with
  | [] => None
  | (k', v) :: d' => if decide (k = k') then Some v else od_get k d'
  end.

(** [d[k] = v]: an existing key keeps its position and gets the new value,
    a new key goes last. *)
Fixpoint od_set {V} (k : key) (v : V) (d : odict V) : odict V :=
  match d with
  | [] => [(k, v)]
  | (k', v') :: d' =>
      if decide (k = k') then (k', v) :: d' else (k', v') :: od_set k v d'
  end.

Definition od_keys {V} (d : odict V) : list key := d.*1.

(** [d.get(k, default)] *)
Definition od_get_default {V} (k : key) (dflt : V) (d : odict V) : V :=
  default dflt (od_get k d).

(** [hash(v)], needed whenever [v] is used as a key. *)
Definition to_key (v : value) : result key :=
  match v with
  | VNone => Ok KNone
  | VBool b => Ok (KInt (if b then 1 else 0))
  | VInt n => Ok (KInt n)
  | VStr s => Ok (KStr s)
  | VList _ | VDict _ => Raise TypeError
  end.

Definition key_value (k : key) : value :=
  match k with
  | KNone => VNone
  | KInt n => VInt n
  | KStr s => VStr s
  end.

(** [bool(v)] *)
Definition truthy (v : value) : bool :=
  match v with
  | VNone => false
  | VBool b => b
  | VInt n => negb (n =? 0)
  | VStr s => negb (String.eqb s "")
  | VList l => match l with [] => false | _ => true end
  | VDict d => match d with [] => false | _ => true end
  end.

(** [v == s] for a string literal [s] *)
Definition str_eqb (v : value) (s : string) : bool :=
  match v with
  | VStr s' => String.eqb s' s
  | _ => false
  end.

(** The one-character strings a string iterates over. *)
Fixpoint chars (s : string) : list value :=
  match s with
  | EmptyString => []
  | String c s' => VStr (String c EmptyString) :: chars s'
  end.

(** [iter(v)] *)
Definition py_iter (v : value) : result (list value) :=
  match v with
  | VList l => Ok l
  | VDict d => Ok (key_value <$> od_keys d)
  | VStr s => Ok (chars s)
  | VNone | VBool _ | VInt _ => Raise TypeError
  end.

(** [v.get(k, default)]: only dictionaries have the method. *)
Definition py_get (v : value) (k : string) (dflt : value) : result value :=
  match v with
  | VDict d => Ok (od_get_default (KStr k) dflt d)
  | _ => Raise AttributeError
  end.

(** [range(v)] has [max(v, 0)] elements and wants an integer. *)
Definition range_len (v : value) : result nat :=
  match v with
  | VInt n => Ok (Z.to_nat n)
  | VBool b => Ok (if b then 1%nat else 0%nat)
  | _ => Raise TypeError
  end.

(** ** [dict.update] and [_merge_configs] *)

(** Mapping argument: assign every item of [src], in order. *)
Definition od_update {V} (d src : odict V) : odict V :=
  foldl (fun acc kv => od_set kv.1 kv.2 acc) d src.

(** An element of a non-mapping argument must be a sequence of length 2. *)
Definition update_pair (v : value) : result (key * value) :=
  kv ←
    match v with
    | VList [a; b] => Ok (a, b)
    | VList _ => Raise ValueError
    | VStr s =>
        match chars s with
        | [a; b] => Ok (a, b)
        | _ => Raise ValueError
        end
    | VDict [(a, _); (b, _)] => Ok (key_value a, key_value b)
    | VDict _ => Raise ValueError
    | VNone | VBool _ | VInt _ => Raise TypeError
    end;
  k ← to_key kv.1;
  Ok (k, kv.2).

Fixpoint update_pairs (d : odict value) (l : list value) : result (odict value) :=
  match l with
  | [] => Ok d
  | v :: l' =>
      kv ← update_pair v;
      update_pairs (od_set kv.1 kv.2 d) l'
  end.

(** [d.update(arg)] on the contents [d] of the receiver. *)
Definition py_dict_update (d : odict value) (arg : value) : result (odict value) :=
  match arg with
  | VDict src => Ok (od_update d src)
  | VList l => update_pairs d l
  | VStr s => update_pairs d (chars s)
  | VNone | VBool _ | VInt _ => Raise TypeError
  end.

(** [_merge_configs(global_config, dataset_config)], on contents.
    [copy] exists on dictionaries and lists only, and a list copy has no
    [update]. *)
Definition _merge_configs (global_config dataset_config : value) : result value :=
  match global_config with
  | VDict g =>
      merged ← py_dict_update g dataset_config;
      Ok (VDict merged)
  | _ => Raise AttributeError
  end.

(** *** The same method on a store of objects

    Python passes dictionaries by reference, and [update] writes into its
    receiver.  To see which objects [_merge_configs] writes, objects live in
    a store indexed by their address; [copy] allocates. *)
Module Store.

Definition loc : Set := nat.
Abbreviation heap := (list value).

Definition alloc (h : heap) (v : value) : heap * loc := (h ++ [v], length h).

(** [h[r].copy()] *)
Definition py_copy (h : heap) (r : loc) : result (heap * loc) :=
  match h !! r with
  | Some (VDict d) => Ok (alloc h (VDict d))
  | Some (VList l) => Ok (alloc h (VList l))
  | _ => Raise AttributeError
  end.

(** [h[r].update(h[src])] *)
Definition py_update (h : heap) (r src : loc) : result heap :=
  match h !! r, h !! src with
  | Some (VDict d), Some arg =>
      d' ← py_dict_update d arg;
      Ok (<[r := VDict d']> h)
  | _, _ => Raise AttributeError
  end.

Definition _merge_configs (h : heap) (global_config dataset_config : loc)
  : result (heap * loc) :=
  hm ← py_copy h global_config;
  let '(h1, merged_config) := hm in
  h2 ← py_update h1 merged_config dataset_config;
  Ok (h2, merged_config).

End Store.

(** ** Tables, console messages and file-system events *)

(** The [data] dictionary of [generate]: column name to column. *)
Definition table (cell : Type) : Type := odict (list cell).

(** [df.head(n)] *)
Definition head_rows {cell} (n : nat) (t : table cell) : table cell :=
  prod_map id (take n) <$> t.

(** The records [to_csv(..., index=False)] serialises: one header record of
    column names, then one record per row.  A frame has as many rows as its
    first column has cells. *)
Definition n_rows {cell} (t : table cell) : nat :=
  match t with
  | [] => 0%nat
  | (_, col) :: _ => length col
  end.

Definition row_at {cell} (t : table cell) (i : nat) : list (option cell) :=
  (fun kc => kc.2 !! i) <$> t.

Definition to_csv_records {cell} (t : table cell)
  : list key * list (list (option cell)) :=
  (od_keys t, row_at t <$> seq 0 (n_rows t)).

Inductive separator : Set := Comma | Tab.

(** [os.path.join(directory, f"{name}.{format}")], kept as its parts;
    [path_string] below gives the string they make. *)
Record out_path : Type := OutPath {
  p_directory : string;
  p_name : key;
  p_format : value
}.

Inductive message (cell : Type) : Type :=
| MsgGenerated (num_rows : value) (dataset_name : key)
| MsgHead (preview : table cell)
| MsgUnsupported (output_format : value).
Arguments MsgGenerated {cell} num_rows dataset_name.
Arguments MsgHead {cell} preview.
Arguments MsgUnsupported {cell} output_format.

Inductive event (cell : Type) : Type :=
| EPrint (m : message cell)
| EMakedirs (directory : value)
| EWrite (file : out_path) (sep : separator) (df : table cell).
Arguments EPrint {cell} m.
Arguments EMakedirs {cell} directory.
Arguments EWrite {cell} file sep df.

Definition is_write {cell} (e : event cell) : bool :=
  match e with
  | EWrite _ _ _ => true
  | _ => false
  end.

(** The files written so far, oldest first. *)
Definition writes {cell} (tr : list (event cell)) : list (event cell) :=
  filter (fun e => is_write e = true) tr.

(** ** The environment of a run

    Faker, the clock and the file system are collaborators of the program:
    [fake_getattr] is [getattr(self.fake, name)] ([None] when Faker has no
    such attribute; calling the attribute may itself raise; an attribute
    whose lookup raises another exception, as Faker's guarded [seed] does,
    is outside the model), [config_file]
    what opening and parsing a path gives ([None] when the path does not
    exist), and the two [_exn] fields say when the operating system refuses
    a directory creation or a write, given what the run did before. *)
Record Env : Type := {
  rng : Type;
  clock : Type;
  cell : Type;
  fake_getattr : string → option (rng → result cell * rng);
  datetime_now : clock → cell * clock;
  config_file : string → option (result value);
  makedirs_exn : list (event cell) → value → option exn;
  to_csv_exn : list (event cell) → out_path → option exn
}.

Section Generator.

Context (E : Env).

Record world : Type := World {
  w_rng : rng E;
  w_clock : clock E;
  w_trace : list (event (cell E))
}.

(** Computations that read and write the world and may raise; the world
    at the point of the exception is kept. *)
Definition M (A : Type) : Type := world → result A * world.

Definition ret {A} (a : A) : M A := fun w => (Ok a, w).

Definition raise {A} (e : exn) : M A := fun w => (Raise e, w).

Definition bind {A B} (m : M A) (k : A → M B) : M B :=
  fun w =>
    match m w with
    | (Ok a, w') => k a w'
    | (Raise e, w') => (Raise e, w')
    end.

#[global] Instance M_ret : MRet M := @ret.
#[global] Instance M_bind : MBind M := fun A B k m => bind m k.

Definition lift {A} (r : result A) : M A := fun w => (r, w).

Definition emit (e : event (cell E)) : M unit :=
  fun w => (Ok (), World (w_rng w) (w_clock w) (w_trace w ++ [e])).

Definition print (m : message (cell E)) : M unit := emit (EPrint m).

(** [for x in l: acc = body(acc, x)] *)
Fixpoint for_fold {A B} (body : B → A → M B) (acc : B) (l : list A) : M B :=
  match l with
  | [] => ret acc
  | x :: l' => acc' ← body acc x; for_fold body acc' l'
  end.

(** [for x in l: body(x)] *)
Fixpoint for_each {A} (body : A → M unit) (l : list A) : M unit :=
  match l with
  | [] => ret ()
  | x :: l' => _ ← body x; for_each body l'
  end.

(** [[f() for _ in range(n)]] for a counted [n] *)
Fixpoint repeat_call {A} (n : nat) (f : M A) : M (list A) :=
  match n with
  | O => ret []
  | S n' => x ← f; xs ← repeat_call n' f; ret (x :: xs)
  end.

(** [[f() for _ in range(num_rows)]] *)
Definition comprehension {A} (num_rows : value) (f : M A) : M (list A) :=
  n ← lift (range_len num_rows);
  repeat_call n f.

(** Calling a Faker attribute advances Faker's generator. *)
Definition call_fake (f : rng E → result (cell E) * rng E) : M (cell E) :=
  fun w =>
    let '(r, g) := f (w_rng w) in
    (r, World g (w_clock w) (w_trace w)).

(** [getattr(self.fake, name)] *)
Definition getattr_fake (name : value) : result (M (cell E)) :=
  match name with
  | VStr s =>
      match fake_getattr E s with
      | Some f => Ok (call_fake f)
      | None => Raise AttributeError
      end
  | _ => Raise TypeError
  end.

(** [self.fake.name()] *)
Definition fake_name : M (cell E) :=
  faker_method ← lift (getattr_fake (VStr "name"));
  faker_method.

(** [datetime.now()] *)
Definition now : M (cell E) :=
  fun w =>
    let '(t, c) := datetime_now E (w_clock w) in
    (Ok t, World (w_rng w) c (w_trace w)).

(** [v[k]] for a string literal [k] *)
Definition subscript (v : value) (k : string) : result value :=
  match v with
  | VDict d =>
      match od_get (KStr k) d with
      | Some x => Ok x
      | None => Raise KeyError
      end
  | _ => Raise TypeError
  end.

(** Lines 31-34: one declared field. *)
Definition field_step (num_rows : value) (data : table (cell E)) (field : value)
  : M (table (cell E)) :=
  field_name ← lift (subscript field "name");
  faker_method_name ← lift (subscript field "type");
  faker_method ← lift (getattr_fake faker_method_name);
  column ← comprehension num_rows faker_method;
  k ← lift (to_key field_name);
  ret (od_set k column data).

(** Lines 38-41: one requested metadata field. *)
Definition metadata_step (num_rows : value) (data : table (cell E))
  (metadata_field : value) : M (table (cell E)) :=
  if str_eqb metadata_field "created_at" || str_eqb metadata_field "modified_at" then
    column ← comprehension num_rows now;
    k ← lift (to_key metadata_field);
    ret (od_set k column data)
  else if str_eqb metadata_field "created_by" || str_eqb metadata_field "modified_by" then
    column ← comprehension num_rows fake_name;
    k ← lift (to_key metadata_field);
    ret (od_set k column data)
  else ret data.

(** [pd.DataFrame(data)] refuses columns of different lengths. *)
Definition DataFrame (data : table (cell E)) : result (table (cell E)) :=
  if forallb (fun kc => Nat.eqb (length kc.2) (n_rows data)) data
  then Ok data
  else Raise ValueError.

Record generator : Type := Generator {
  config : value;
  global_metadata : value;
  global_output : value
}.

(** What lines 24-43 compute for one dataset. *)
Record built : Type := Built {
  b_num_rows : value;
  b_output_config : value;
  b_df : table (cell E)
}.

(** Lines 24-43 of [generate]: the table of one dataset. *)
Definition build (self : generator) (dataset_config : value) : M built :=
  num_rows ← lift (py_get dataset_config "rows" (VInt 100));
  metadata_local ← lift (py_get dataset_config "metadata" (VDict []));
  metadata_config ← lift (_merge_configs (global_metadata self) metadata_local);
  output_local ← lift (py_get dataset_config "output" (VDict []));
  output_config ← lift (_merge_configs (global_output self) output_local);
  fields ← lift (py_get dataset_config "fields" (VList []));
  fields ← lift (py_iter fields);
  data ← for_fold (field_step num_rows) [] fields;
  enable ← lift (py_get metadata_config "enable" (VBool false));
  data ←
    (if truthy enable then
       metadata_fields ← lift (py_get metadata_config "fields" (VList []));
       metadata_fields ← lift (py_iter metadata_fields);
       for_fold (metadata_step num_rows) data metadata_fields
     else ret data);
  df ← lift (DataFrame data);
  ret (Built num_rows output_config df).

(** [os.makedirs(directory, exist_ok=True)] *)
Definition makedirs (directory : value) : M unit :=
  fun w =>
    match makedirs_exn E (w_trace w) directory with
    | Some e => raise e w
    | None => emit (EMakedirs directory) w
    end.

(** [os.path.join] wants a string for the directory. *)
Definition path_join (directory : value) (name : key) (format : value)
  : result out_path :=
  match directory with
  | VStr d => Ok (OutPath d name format)
  | _ => Raise TypeError
  end.

(** [df.to_csv(file, sep=sep, index=False)]; the trace records completed
    writes. *)
Definition to_csv (df : table (cell E)) (file : out_path) (sep : separator)
  : M unit :=
  fun w =>
    match to_csv_exn E (w_trace w) file with
    | Some e => raise e w
    | None => emit (EWrite file sep df) w
    end.

(** Lines 44-58 of [generate]: report and write one dataset. *)
Definition write (dataset_name : key) (b : built) : M unit :=
  _ ← print (MsgGenerated (b_num_rows b) dataset_name);
  _ ← print (MsgHead (head_rows 10 (b_df b)));
  output_directory ← lift (py_get (b_output_config b) "directory" (VStr "output/"));
  _ ← makedirs output_directory;
  output_format ← lift (py_get (b_output_config b) "format" (VStr "csv"));
  output_file ← lift (path_join output_directory dataset_name output_format);
  if str_eqb output_format "csv" then to_csv (b_df b) output_file Comma
  else if str_eqb output_format "tsv" then to_csv (b_df b) output_file Tab
  else print (MsgUnsupported output_format).

(** The body of the loop of [generate]. *)
Definition run_dataset (self : generator) (item : key * value) : M unit :=
  b ← build self item.2;
  write item.1 b.

(** [v.items()] *)
Definition py_items (v : value) : result (list (key * value)) :=
  match v with
  | VDict d => Ok d
  | _ => Raise AttributeError
  end.

(** [DataGenerator.generate] *)
Definition generate (self : generator) : M unit :=
  datasets ← lift (py_get (config self) "datasets" (VDict []));
  items ← lift (py_items datasets);
  for_each (run_dataset self) items.

(** [DataGenerator._load_config] *)
Definition _load_config (config_path : string) : result value :=
  match config_file E config_path with
  | None => Ok (VDict [])
  | Some r => r
  end.

(** [DataGenerator.__init__] *)
Definition __init__ (config_path : string) : result generator :=
  config ← _load_config config_path;
  global_config ← py_get config "global" (VDict []);
  global_metadata ← py_get global_config "metadata" (VDict []);
  global_output ← py_get global_config "output" (VDict []);
  Ok (Generator config global_metadata global_output).

(** The [__main__] block. *)
Definition main : M unit :=
  generator ← lift (__init__ "config/config.yml");
  generate generator.

End Generator.

Arguments World {E} w_rng w_clock w_trace.
Arguments w_rng {E} w.
Arguments w_clock {E} w.
Arguments w_trace {E} w.
Arguments ret {E A} a.
Arguments raise {E A} e.
Arguments bind {E A B} m k.
Arguments lift {E A} r.
Arguments emit {E} e.
Arguments print {E} m.
Arguments for_fold {E A B} body acc l.
Arguments for_each {E A} body l.
Arguments repeat_call {E A} n f.
Arguments comprehension {E A} num_rows f.
Arguments call_fake {E} f.
Arguments DataFrame {E} data.
Arguments Built {E} b_num_rows b_output_config b_df.
Arguments b_num_rows {E} b.
Arguments b_output_config {E} b.
Arguments b_df {E} b.
Arguments build {E} self dataset_config.
Arguments makedirs {E} directory.
Arguments to_csv {E} df file sep.
Arguments write {E} dataset_name b.
Arguments run_dataset {E} self item.
Arguments generate {E} self.

(** ** A small environment to run the program in

    Faker knows three providers; the [n]-th draw of a provider is the cell
    [Fake provider n].  The clock ticks once per reading.  Directories must
    be named by strings and every write succeeds; which configuration files
    exist is a parameter. *)
Module Demo.

Inductive demo_cell : Set :=
| Fake (provider : string) (draw : nat)
| Stamp (t : Z).

Definition providers : list string := ["name"; "email"; "address"].

Definition demo_getattr (s : string)
  : option (nat → result demo_cell * nat) :=
  if bool_decide (s ∈ providers)
  then Some (fun g => (Ok (Fake s g), S g))
  else None.

Definition demo_makedirs (tr : list (event demo_cell)) (d : value) : option exn :=
  match d with
  | VStr _ => None
  | _ => Some TypeError
  end.

Definition env_with (files : string → option (result value)) : Env := {|
  rng := nat;
  clock := Z;
  cell := demo_cell;
  fake_getattr := demo_getattr;
  datetime_now := fun c => (Stamp c, c + 1);
  config_file := files;
  makedirs_exn := demo_makedirs;
  to_csv_exn := fun _ _ => None
|}.

Definition env : Env := env_with (fun _ => None).

(** The same, with an empty file at the default path. *)
Definition env_null : Env :=
  env_with (fun path =>
    if String.eqb path "config/config.yml" then Some (Ok VNone) else None).

(** The same, with a configuration whose global [metadata] is a number. *)
Definition bad_global : value :=
  VDict [(KStr "global", VDict [(KStr "metadata", VInt 5)]);
         (KStr "datasets",
          VDict [(KStr "people",
                  VDict [(KStr "fields",
                          VList [VDict [(KStr "name", VStr "full_name");
                                        (KStr "type", VStr "name")]])])])].

Definition env_bad_global : Env := env_with (fun _ => Some (Ok bad_global)).

Definition w0 : world env := World (E := env) 0%nat 0 [].

(** [{name: ..., type: ...}] *)
Definition field (name type : string) : value :=
  VDict [(KStr "name", VStr name); (KStr "type", VStr type)].

(** A generator whose configuration has the given [datasets] and no
    [global] section. *)
Definition gen (datasets : list (key * value)) : generator :=
  Generator (VDict [(KStr "datasets", VDict datasets)]) (VDict []) (VDict []).

Definition people : value :=
  VDict [(KStr "rows", VInt 2);
         (KStr "fields", VList [field "full_name" "name"; field "mail" "email"])].

Definition broken : value :=
  VDict [(KStr "rows", VInt 2);
         (KStr "fields", VList [field "x" "no_such_provider"])].

Definition people_df : table demo_cell :=
  [(KStr "full_name", [Fake "name" 0; Fake "name" 1]);
   (KStr "mail", [Fake "email" 2; Fake "email" 3])].

(** The world after [people] has run from [w0]. *)
Definition w_people : world env :=
  World (E := env) 4%nat 0
    [EPrint (MsgGenerated (VInt 2) (KStr "people"));
     EPrint (MsgHead people_df);
     EMakedirs (VStr "output/");
     EWrite (OutPath "output/" (KStr "people") (VStr "csv")) Comma people_df].

(** A declared field that has the name of a metadata field. *)
Definition stamped : value :=
  VDict [(KStr "rows", VInt 2);
         (KStr "fields", VList [field "created_at" "name"; field "city" "address"]);
         (KStr "metadata",
          VDict [(KStr "enable", VBool true);
                 (KStr "fields", VList [VStr "created_at"])])].

Definition stamped_df : table demo_cell :=
  [(KStr "created_at", [Stamp 0; Stamp 1]);
   (KStr "city", [Fake "address" 2; Fake "address" 3])].

(** Metadata columns that collide with no field, and a name that is not a
    metadata field. *)
Definition audited : value :=
  VDict [(KStr "rows", VInt 1);
         (KStr "fields", VList [field "full_name" "name"]);
         (KStr "metadata",
          VDict [(KStr "enable", VBool true);
                 (KStr "fields",
                  VList [VStr "modified_by"; VStr "checksum"; VStr "created_at"])])].

Definition audited_df : table demo_cell :=
  [(KStr "full_name", [Fake "name" 0]);
   (KStr "modified_by", [Fake "name" 1]);
   (KStr "created_at", [Stamp 0])].

(** [rows: -3] with a field and a metadata column. *)
Definition hollow_items : odict value :=
  [(KStr "rows", VInt (-3));
   (KStr "fields", VList [field "full_name" "name"]);
   (KStr "metadata",
    VDict [(KStr "enable", VBool true);
           (KStr "fields", VList [VStr "created_at"])])].

Definition hollow : value := VDict hollow_items.

Definition hollow_df : table demo_cell :=
  [(KStr "full_name", []); (KStr "created_at", [])].

(** [format: json] *)
Definition as_json : value :=
  VDict [(KStr "rows", VInt 1);
         (KStr "fields", VList [field "mail" "email"]);
         (KStr "output", VDict [(KStr "format", VStr "json")])].

Definition as_json_df : table demo_cell := [(KStr "mail", [Fake "email" 0])].

End Demo.

(** ** The quantities the statements are about

    These name sub-expressions of [generate], evaluated the way [build]
    evaluates them. *)

(** A dictionary object has each key once. *)
Definition od_wf {V} (d : odict V) : Prop := NoDup (od_keys d).

(** Line 27: the effective metadata configuration of a dataset. *)
Definition effective_metadata (self : generator) (dataset_config : value)
  : result value :=
  metadata_local ← py_get dataset_config "metadata" (VDict []);
  _merge_configs (global_metadata self) metadata_local.

(** Line 28: the effective output configuration of a dataset. *)
Definition effective_output (self : generator) (dataset_config : value)
  : result value :=
  output_local ← py_get dataset_config "output" (VDict []);
  _merge_configs (global_output self) output_local.

(** Line 36: the truth value of the effective [enable]. *)
Definition metadata_enabled (self : generator) (dataset_config : value) : bool :=
  match effective_metadata self dataset_config with
  | Ok m =>
      match py_get m "enable" (VBool false) with
      | Ok enable => truthy enable
      | Raise _ => false
      end
  | Raise _ => false
  end.

(** Line 30: the declared fields, in declaration order. *)
Definition declared_fields (dataset_config : value) : list value :=
  match (fields ← py_get dataset_config "fields" (VList []); py_iter fields) with
  | Ok l => l
  | Raise _ => []
  end.

(** Line 37: the requested metadata fields, in the order listed. *)
Definition requested_metadata (self : generator) (dataset_config : value)
  : list value :=
  match (m ← effective_metadata self dataset_config;
         metadata_fields ← py_get m "fields" (VList []);
         py_iter metadata_fields) with
  | Ok l => l
  | Raise _ => []
  end.

Definition result_to_option {A} (r : result A) : option A :=
  match r with
  | Ok a => Some a
  | Raise _ => None
  end.

(** The column a declared field is stored under. *)
Definition field_key (field : value) : option key :=
  result_to_option (field_name ← subscript field "name"; to_key field_name).

Definition declared_names (dataset_config : value) : list key :=
  omap field_key (declared_fields dataset_config).

(** Lines 38 and 40: the four names [generate] acts on. *)
Definition recognized (metadata_field : value) : bool :=
  str_eqb metadata_field "created_at" || str_eqb metadata_field "modified_at"
  || str_eqb metadata_field "created_by" || str_eqb metadata_field "modified_by".

Definition metadata_key (metadata_field : value) : option key :=
  if recognized metadata_field
  then result_to_option (to_key metadata_field)
  else None.

(** The metadata columns [generate] assigns: none unless enabled. *)
Definition metadata_names (self : generator) (dataset_config : value) : list key :=
  if metadata_enabled self dataset_config
  then omap metadata_key (requested_metadata self dataset_config)
  else [].

(** What fills a metadata column: the clock or Faker's [name]. *)
Definition metadata_source {E} (metadata_field : value) : M E (cell E) :=
  if str_eqb metadata_field "created_at" || str_eqb metadata_field "modified_at"
  then now E
  else fake_name E.

(** Keys in order of first assignment, given the keys already [seen]. *)
Fixpoint first_seen (seen l : list key) : list key :=
  match l with
  | [] => []
  | k :: l' =>
      if bool_decide (k ∈ seen) then first_seen seen l'
      else k :: first_seen (k :: seen) l'
  end.

(** ** Properties of computations and tables *)

Section Predicates.

Context {E : Env}.

(** A computation that prints nothing and touches no file. *)
Definition quiet {A} (m : M E A) : Prop :=
  ∀ w r w', m w = (r, w') → w_trace w' = w_trace w.

(** [step] assigns at most one column, the one [key_of] names, and the
    assigned column satisfies [Q]. *)
Definition assigns (key_of : value → option key)
    (Q : key → list (cell E) → Prop)
    (step : table (cell E) → value → M E (table (cell E))) : Prop :=
  ∀ data x w data' w',
    step data x w = (Ok data', w') →
    match key_of x with
    | Some k => ∃ col, data' = od_set k col data ∧ Q k col
    | None => data' = data
    end.

(** The column a metadata step assigns was drawn from the clock or from
    Faker's [name], not taken from a field. *)
Definition metadata_column (num_rows : value) (k : key) (col : list (cell E)) : Prop :=
  ∃ w1 w2, comprehension num_rows (metadata_source (key_value k)) w1 = (Ok col, w2).

(** A computation that only appends events satisfying [P] to the trace. *)
Definition logs {A} (P : event (cell E) → Prop) (m : M E A) : Prop :=
  ∀ w r w', m w = (r, w') →
    ∃ evs, w' = World (w_rng w) (w_clock w) (w_trace w ++ evs) ∧ Forall P evs.

(** What a file written by [write] is: this dataset's table, under this
    dataset's name, with the separator of its format. *)
Definition written_by (name : key) (b : built E) (e : event (cell E)) : Prop :=
  ∀ file sep df, e = EWrite file sep df →
    df = b_df b ∧ p_name file = name
    ∧ py_get (b_output_config b) "format" (VStr "csv") = Ok (p_format file)
    ∧ (p_format file = VStr "csv" ∧ sep = Comma
       ∨ p_format file = VStr "tsv" ∧ sep = Tab).

(** A declared field that can be built: it has a hashable [name] and its
    [type] names an attribute of Faker. *)
Definition field_ok (field : value) : Prop :=
  ∃ name type f k,
    subscript field "name" = Ok name
    ∧ subscript field "type" = Ok type
    ∧ getattr_fake E type = Ok f
    ∧ to_key name = Ok k.

Definition all_empty (data : table (cell E)) : Prop :=
  ∀ k col, (k, col) ∈ data → col = [].

End Predicates.

(** ** Draws, readings and written files *)

Section Draws.

Context {E : Env}.

(** [n] successive calls of a Faker attribute, stopping at the first that
    raises. *)
Fixpoint draws (f : rng E → result (cell E) * rng E) (n : nat) (g : rng E)
  : result (list (cell E)) * rng E :=
  match n with
  | O => (Ok [], g)
  | S n' =>
      match f g with
      | (Ok x, g1) =>
          match draws f n' g1 with
          | (Ok xs, g2) => (Ok (x :: xs), g2)
          | (Raise e, g2) => (Raise e, g2)
          end
      | (Raise e, g1) => (Raise e, g1)
      end
  end.

(** [n] successive readings of the clock. *)
Fixpoint readings (n : nat) (c : clock E) : list (cell E) * clock E :=
  match n with
  | O => ([], c)
  | S n' =>
      let '(t, c1) := datetime_now E c in
      let '(ts, c2) := readings n' c1 in
      (t :: ts, c2)
  end.

(** A computation that leaves one component of the world as it was. *)
Definition keeps {A X} (component : world E → X) (m : M E A) : Prop :=
  ∀ w r w', m w = (r, w') → component w' = component w.

(** Every file in [evs] was written after a directory creation for its own
    directory, earlier in [evs]. *)
Definition directory_made_first (evs : list (event (cell E))) : Prop :=
  ∀ i file sep df,
    evs !! i = Some (EWrite file sep df) →
    ∃ j, (j < i)%nat ∧ evs !! j = Some (EMakedirs (VStr (p_directory file))).

(** The two notices [write] starts with. *)
Definition notices (name : key) (b : built E) : list (event (cell E)) :=
  [EPrint (MsgGenerated (b_num_rows b) name);
   EPrint (MsgHead (head_rows 10 (b_df b)))].

(** The last event of a successful [write]. *)
Definition final_event (name : key) (b : built E) (d : string) (fmt : value)
  : event (cell E) :=
  if str_eqb fmt "csv" then EWrite (OutPath d name fmt) Comma (b_df b)
  else if str_eqb fmt "tsv" then EWrite (OutPath d name fmt) Tab (b_df b)
  else EPrint (MsgUnsupported fmt).

End Draws.

(** Lines 50, 53 and 55: the effective format of a dataset, and whether
    [generate] writes a file for it. *)
Definition output_format (self : generator) (dataset_config : value)
  : result value :=
  output_config ← effective_output self dataset_config;
  py_get output_config "format" (VStr "csv").

Definition supported (output_format : value) : bool :=
  str_eqb output_format "csv" || str_eqb output_format "tsv".

Definition writes_file (self : generator) (item : key * value) : bool :=
  match output_format self item.2 with
  | Ok fmt => supported fmt
  | Raise _ => false
  end.

(** The dataset names of the files in a trace, oldest first. *)
Definition written_names {cell} (tr : list (event cell)) : list key :=
  omap (fun e => match e with
                 | EWrite file _ _ => Some (p_name file)
                 | _ => None
                 end) tr.

(** *** The path of a written file

    [posixpath.join(a, b)]: a [b] that begins with [/] replaces [a];
    otherwise [b] follows [a], with a [/] between them unless [a] is empty
    or ends with one. *)
Definition starts_with_slash (s : string) : bool :=
  match s with
  | String c _ => Ascii.eqb c "/"%char
  | EmptyString => false
  end.

Fixpoint ends_with_slash (s : string) : bool :=
  match s with
  | EmptyString => false
  | String c EmptyString => Ascii.eqb c "/"%char
  | String _ s' => ends_with_slash s'
  end.

Definition with_slash (a : string) : string :=
  if String.eqb a "" || ends_with_slash a then a else a +:+ "/".

Definition posix_join (a b : string) : string :=
  if starts_with_slash b then b else with_slash a +:+ b.

(** [f"{dataset_name}.{output_format}"] for a string name and format. *)
Definition file_name (name : key) (format : value) : option string :=
  match name, format with
  | KStr n, VStr f => Some (n +:+ "." +:+ f)
  | _, _ => None
  end.

(** The string [os.path.join] returns for a file, on POSIX, when the
    dataset name and the format are strings. *)
Definition path_string (file : out_path) : option string :=
  b ← file_name (p_name file) (p_format file);
  Some (posix_join (p_directory file) b).

(** Null, booleans and integers: the values [dict.update] cannot iterate. *)
Definition scalar (v : value) : bool :=
  match v with
  | VNone | VBool _ | VInt _ => true
  | _ => false
  end.

Definition mapping (v : value) : bool :=
  match v with
  | VDict _ => true
  | _ => false
  end.

(** ** The first version of the generator, [datasapling/src/main.py]

    Its constructor only loads the configuration and its [generate] prints
    the class and the two modules it imported. *)
Module Skeleton.

Inductive printed : Set := PFaker | PYaml | POs.

Record generator : Type := Generator { config : value }.

(** [DataGenerator._load_config] *)
Definition _load_config (E : Env) (config_path : string) : result value :=
  match config_file E config_path with
  | None => Ok (VDict [])
  | Some r => r
  end.

(** [DataGenerator.__init__] *)
Definition __init__ (E : Env) (config_path : string) : result generator :=
  config ← _load_config E config_path;
  Ok (Generator config).

(** [DataGenerator.generate], on the lines printed so far. *)
Definition generate (self : generator) (out : list printed) : list printed :=
  out ++ [PFaker; PYaml; POs].

(** The [__main__] block. *)
Definition main (E : Env) (out : list printed) : result (list printed) :=
  generator ← __init__ E "config/config.yml";
  Ok (generate generator out).

End Skeleton.

(** ** Dictionaries *)

Lemma filter_ext_elem_of {A} (P Q : A → Prop)
    `{!∀ x, Decision (P x)} `{!∀ x, Decision (Q x)} (l : list A) :
  (∀ x, x ∈ l → P x ↔ Q x) → filter P l = filter Q l.
Proof.
  induction l as [|x l IH]; intros HPQ; [done|].
  assert (filter P l = filter Q l) as IH'.
  { apply IH. intros y Hy. apply HPQ, elem_of_cons. by right. }
  assert (P x ↔ Q x) as Hx by (apply HPQ, elem_of_cons; by left).
  destruct (decide (P x)) as [HP|HP].
  - rewrite !filter_cons_True by tauto. by rewrite IH'.
  - rewrite !filter_cons_False by tauto. done.
Qed.

Section Dictionaries.

Context {V : Type}.
Implicit Types (d : odict V) (k : key) (v : V).

Lemma od_get_set_eq k v d : od_get k (od_set k v d) = Some v.
Proof.
  induction d as [|[k' v'] d IH]; simpl.
  - by rewrite decide_True.
  - destruct (decide (k = k')) as [->|Hne]; simpl.
    + by rewrite decide_True.
    + by rewrite decide_False.
Qed.

Lemma od_get_set_ne k k' v d : k ≠ k' → od_get k' (od_set k v d) = od_get k' d.
Proof.
  intros Hne. induction d as [|[k0 v0] d IH]; simpl.
  - by rewrite decide_False.
  - destruct (decide (k = k0)) as [->|Hk]; simpl.
    + by rewrite !decide_False.
    + by rewrite IH.
Qed.

Lemma od_get_None k d : od_get k d = None ↔ k ∉ od_keys d.
Proof.
  unfold od_keys. induction d as [|[k' v'] d IH]; csimpl.
  - split; [intros _; apply not_elem_of_nil | done].
  - rewrite not_elem_of_cons. destruct (decide (k = k')) as [->|Hne].
    + split; [done | by intros [? _]].
    + rewrite IH. tauto.
Qed.

Lemma od_keys_set k v d :
  od_keys (od_set k v d)
  = if bool_decide (k ∈ od_keys d) then od_keys d else od_keys d ++ [k].
Proof.
  unfold od_keys. induction d as [|[k' v'] d IH]; csimpl.
  - done.
  - destruct (decide (k = k')) as [->|Hne]; csimpl.
    + clear IH. case_bool_decide as Hin; [done|].
      exfalso. apply Hin, elem_of_cons. by left.
    + rewrite IH. clear IH. repeat case_bool_decide; try done.
      * exfalso. match goal with H : _ ∉ _ :: _ |- _ => apply H end.
        apply elem_of_cons. by right.
      * exfalso. match goal with H : _ ∈ _ :: _ |- _ =>
          apply elem_of_cons in H as [?|?] end; done.
Qed.

(** Assignment touches one column: every entry of the result is the new
    one or an old one. *)
Lemma od_set_elem_of k v k' v' d :
  (k', v') ∈ od_set k v d → (k', v') = (k, v) ∨ (k', v') ∈ d.
Proof.
  induction d as [|[k0 v0] d IH]; simpl.
  - intros ->%list_elem_of_singleton. by left.
  - destruct (decide (k = k0)) as [->|Hne].
    + intros [->|?]%elem_of_cons; [by left|].
      right. apply elem_of_cons; by right.
    + intros [->|H]%elem_of_cons.
      * right. apply elem_of_cons; by left.
      * destruct (IH H); [by left|]. right. apply elem_of_cons; by right.
Qed.

Lemma od_update_cons k v d src :
  od_update d ((k, v) :: src) = od_update (od_set k v d) src.
Proof. done. Qed.

(** Reading a key after [update]: the argument's value if it has the key. *)
Lemma od_get_update k d src :
  od_wf src →
  od_get k (od_update d src) = from_option Some (od_get k d) (od_get k src).
Proof.
  unfold od_wf, od_keys. revert d.
  induction src as [|[k' v'] src IH]; intros d Hnd; [done|].
  rewrite fmap_cons in Hnd. apply NoDup_cons in Hnd as [Hk' Hnd].
  cbn [fst] in Hk'. rewrite od_update_cons, IH by done. cbn [od_get].
  destruct (decide (k = k')) as [->|Hne].
  - apply od_get_None in Hk'. rewrite Hk'. simpl. apply od_get_set_eq.
  - rewrite od_get_set_ne by done. done.
Qed.

(** [update] keeps the receiver's keys where they are and appends the
    argument's new keys in the argument's order. *)
Lemma od_keys_update d src :
  od_wf src →
  od_keys (od_update d src)
  = od_keys d ++ filter (fun k => k ∉ od_keys d) (od_keys src).
Proof.
  unfold od_wf. revert d.
  induction src as [|[k v] src IH]; intros d Hnd.
  - simpl. by rewrite app_nil_r.
  - unfold od_keys in Hnd. rewrite fmap_cons in Hnd.
    apply NoDup_cons in Hnd as [Hk Hnd]. cbn [fst] in Hk.
    fold (od_keys src) in Hk, Hnd.
    rewrite od_update_cons, IH by done. rewrite od_keys_set.
    unfold od_keys at 4. csimpl. fold (od_keys src).
    case_bool_decide as Hin.
    + by rewrite filter_cons_False by (intros ?; done).
    + rewrite filter_cons_True by done.
      rewrite <- app_assoc. simpl. do 2 f_equal.
      apply filter_ext_elem_of. intros k' Hk'.
      rewrite elem_of_app, list_elem_of_singleton.
      split; [tauto|]. intros Hn [?|Heq]; [done|]. by subst.
Qed.

End Dictionaries.

(** ** Merging a global section with a dataset's override *)

Lemma merge_configs_dict (g l : odict value) :
  _merge_configs (VDict g) (VDict l) = Ok (VDict (od_update g l)).
Proof. done. Qed.

(** C3.  The merge of two mappings is the global mapping, in its own key
    order, where every key of the local mapping carries the local value
    (keys that only the local mapping has follow, in the local order); the
    three instances of the specification evaluate as it says. *)
Theorem merge_configs_local_wins :
  (∀ g l : odict value, od_wf l →
     ∃ merged,
       _merge_configs (VDict g) (VDict l) = Ok (VDict merged)
       ∧ (∀ k, od_get k merged = from_option Some (od_get k g) (od_get k l))
       ∧ od_keys merged
         = od_keys g ++ filter (fun k => k ∉ od_keys g) (od_keys l))
  ∧ _merge_configs (VDict [(KStr "a", VInt 1); (KStr "b", VInt 2)])
                  (VDict [(KStr "b", VInt 9)])
    = Ok (VDict [(KStr "a", VInt 1); (KStr "b", VInt 9)])
  ∧ _merge_configs (VDict [(KStr "a", VInt 1)]) (VDict [])
    = Ok (VDict [(KStr "a", VInt 1)])
  ∧ _merge_configs (VDict []) (VDict [(KStr "x", VInt 1)])
    = Ok (VDict [(KStr "x", VInt 1)]).
Proof.
  split; [|by repeat split].
  intros g l Hl. exists (od_update g l). split; [apply merge_configs_dict|].
  split; [intros k; by apply od_get_update | by apply od_keys_update].
Qed.

Lemma merge_configs_local_wins_witness :
  od_wf [(KStr "b", VInt 9); (KStr "c", VInt 3)]
  ∧ ∃ merged,
      _merge_configs (VDict [(KStr "a", VInt 1); (KStr "b", VInt 2)])
                    (VDict [(KStr "b", VInt 9); (KStr "c", VInt 3)])
      = Ok (VDict merged)
      ∧ (∀ k, od_get k merged
              = from_option Some
                  (od_get k [(KStr "a", VInt 1); (KStr "b", VInt 2)])
                  (od_get k [(KStr "b", VInt 9); (KStr "c", VInt 3)]))
      ∧ od_keys merged
        = od_keys [(KStr "a", VInt 1); (KStr "b", VInt 2)]
          ++ filter (fun k => k ∉ od_keys [(KStr "a", VInt 1); (KStr "b", VInt 2)])
               (od_keys [(KStr "b", VInt 9); (KStr "c", VInt 3)]).
Proof.
  assert (od_wf [(KStr "b", VInt 9); (KStr "c", VInt 3)]) as Hwf.
  { unfold od_wf. simpl. refine (bool_decide_unpack _ _). vm_compute. exact I. }
  split; [exact Hwf|].
  exact (proj1 merge_configs_local_wins _ _ Hwf).
Defined.

(** On the store, [_merge_configs] allocates its result and writes nothing
    else. *)
Lemma store_merge_configs_ok (h : Store.heap) (g l : Store.loc)
    (dg : odict value) (arg : value) (merged : odict value) :
  h !! g = Some (VDict dg) →
  h !! l = Some arg →
  py_dict_update dg arg = Ok merged →
  Store._merge_configs h g l = Ok (h ++ [VDict merged], length h).
Proof.
  intros Hg Hl Hm. unfold Store._merge_configs, Store.py_copy. rewrite Hg.
  simpl. unfold Store.py_update.
  rewrite (lookup_app_r h) by lia. rewrite Nat.sub_diag. simpl.
  rewrite (lookup_app_l_Some _ _ _ _ Hl). rewrite Hm. simpl.
  do 2 f_equal. rewrite insert_app_r_alt by lia.
  by rewrite Nat.sub_diag.
Qed.

(** C7.  [_merge_configs] leaves both of its arguments as they were: the
    objects at the two argument addresses (which may be one object) hold
    the same mappings afterwards, the result is a new object, and no other
    object changes.  A dataset without the section is merged as the empty
    mapping, which gives the global section back. *)
Theorem merge_configs_frame (h : Store.heap) (g l : Store.loc)
    (dg dl : odict value) :
  h !! g = Some (VDict dg) →
  h !! l = Some (VDict dl) →
  (∃ h' merged,
      Store._merge_configs h g l = Ok (h', merged)
      ∧ h' !! g = Some (VDict dg)
      ∧ h' !! l = Some (VDict dl)
      ∧ h !! merged = None
      ∧ (∀ r, r ≠ merged → h' !! r = h !! r)
      ∧ h' !! merged = Some (VDict (od_update dg dl))
      ∧ _merge_configs (VDict dg) (VDict dl) = Ok (VDict (od_update dg dl)))
  ∧ (∀ self dataset_config,
        od_get (KStr "metadata") dataset_config = None →
        effective_metadata self (VDict dataset_config)
        = _merge_configs (global_metadata self) (VDict []))
  ∧ (∀ self dataset_config,
        od_get (KStr "output") dataset_config = None →
        effective_output self (VDict dataset_config)
        = _merge_configs (global_output self) (VDict []))
  ∧ _merge_configs (VDict dg) (VDict []) = Ok (VDict dg).
Proof.
  intros Hg Hl. split; [|split; [|split]].
  - exists (h ++ [VDict (od_update dg dl)]), (length h).
    split; [by eapply store_merge_configs_ok|].
    split; [by apply lookup_app_l_Some|].
    split; [by apply lookup_app_l_Some|].
    split; [by apply lookup_ge_None_2|].
    split; [|split; [|done]].
    + intros r Hr. destruct (decide (r < length h)%nat).
      * by rewrite lookup_app_l.
      * rewrite !lookup_ge_None_2; [done|lia|].
        rewrite length_app. simpl. lia.
    + rewrite lookup_app_r by lia. by rewrite Nat.sub_diag.
  - intros self ds Hnone. unfold effective_metadata. simpl.
    unfold od_get_default. by rewrite Hnone.
  - intros self ds Hnone. unfold effective_output. simpl.
    unfold od_get_default. by rewrite Hnone.
  - done.
Qed.

Lemma merge_configs_frame_witness :
  let h := [VDict [(KStr "enable", VBool true)]; VDict [(KStr "enable", VBool false)]] in
  h !! 0%nat = Some (VDict [(KStr "enable", VBool true)])
  ∧ h !! 1%nat = Some (VDict [(KStr "enable", VBool false)])
  ∧ ∃ h' merged,
      Store._merge_configs h 0%nat 1%nat = Ok (h', merged)
      ∧ h' !! 0%nat = Some (VDict [(KStr "enable", VBool true)])
      ∧ h' !! 1%nat = Some (VDict [(KStr "enable", VBool false)])
      ∧ h !! merged = None
      ∧ (∀ r, r ≠ merged → h' !! r = h !! r)
      ∧ h' !! merged
        = Some (VDict (od_update [(KStr "enable", VBool true)]
                                 [(KStr "enable", VBool false)]))
      ∧ _merge_configs (VDict [(KStr "enable", VBool true)])
                      (VDict [(KStr "enable", VBool false)])
        = Ok (VDict (od_update [(KStr "enable", VBool true)]
                               [(KStr "enable", VBool false)])).
Proof.
  split; [reflexivity|]. split; [reflexivity|].
  exact (proj1 (merge_configs_frame
    [VDict [(KStr "enable", VBool true)]; VDict [(KStr "enable", VBool false)]]
    0%nat 1%nat _ _ eq_refl eq_refl)).
Defined.

(** ** Order of first assignment *)

Lemma first_seen_equiv (s1 s2 l : list key) :
  (∀ k, k ∈ s1 ↔ k ∈ s2) → first_seen s1 l = first_seen s2 l.
Proof.
  revert s1 s2. induction l as [|k l IH]; intros s1 s2 Heq; [done|].
  simpl. repeat case_bool_decide.
  - by apply IH.
  - exfalso. naive_solver.
  - exfalso. naive_solver.
  - f_equal. apply IH. intros k'. rewrite !elem_of_cons. naive_solver.
Qed.

Lemma elem_of_first_seen (s l : list key) (k : key) :
  k ∈ first_seen s l ↔ k ∈ l ∧ k ∉ s.
Proof.
  revert s. induction l as [|k' l IH]; intros s; simpl.
  - rewrite elem_of_nil. tauto.
  - case_bool_decide as Hin.
    + rewrite IH, elem_of_cons. split; [tauto|].
      intros [[->|?] ?]; tauto.
    + rewrite elem_of_cons, IH, !elem_of_cons.
      destruct (decide (k = k')) as [->|Hne]; [tauto|]. tauto.
Qed.

Lemma first_seen_NoDup (s l : list key) : NoDup (first_seen s l).
Proof.
  revert s. induction l as [|k l IH]; intros s; simpl; [constructor|].
  case_bool_decide; [apply IH|].
  apply NoDup_cons. split; [|apply IH].
  rewrite elem_of_first_seen, elem_of_cons. tauto.
Qed.

Lemma first_seen_app (s l1 l2 : list key) :
  first_seen s (l1 ++ l2) = first_seen s l1 ++ first_seen (l1 ++ s) l2.
Proof.
  revert s. induction l1 as [|k l1 IH]; intros s; simpl; [done|].
  case_bool_decide as Hin.
  - rewrite IH. f_equal. apply first_seen_equiv. intros k'.
    rewrite elem_of_cons, !elem_of_app. naive_solver.
  - simpl. f_equal. rewrite IH. f_equal. apply first_seen_equiv. intros k'.
    rewrite elem_of_cons, !elem_of_app, elem_of_cons. tauto.
Qed.

(** Names that are all different and not yet seen come out unchanged. *)
Lemma first_seen_id (s l : list key) :
  NoDup l → (∀ k, k ∈ l → k ∉ s) → first_seen s l = l.
Proof.
  revert s. induction l as [|k l IH]; intros s Hnd Hs; [done|].
  apply NoDup_cons in Hnd as [Hk Hnd]. simpl.
  rewrite bool_decide_eq_false_2 by (apply Hs, elem_of_cons; by left).
  f_equal. apply IH; [done|]. intros k' Hk'. rewrite elem_of_cons.
  intros [->|?]; [done|]. eapply Hs; [|done]. apply elem_of_cons. by right.
Qed.

(** A name keeps the place of its first occurrence. *)
Lemma first_seen_lookup (l : list key) (k : key) :
  k ∈ l → ∃ i, first_seen [] l !! i = Some k ∧ (i < length (first_seen [] l))%nat.
Proof.
  intros Hk. assert (k ∈ first_seen [] l) as Hin.
  { apply elem_of_first_seen. split; [done | apply not_elem_of_nil]. }
  apply list_elem_of_lookup in Hin as [i Hi]. exists i. split; [done|].
  by eapply lookup_lt_Some.
Qed.

(** ** Reasoning about runs *)

Section Facts.

Context {E : Env}.
Implicit Types (w : world E) (data : table (cell E)) (self : generator).

Local Abbreviation quiet := (quiet (E := E)).
Local Abbreviation logs := (logs (E := E)).
Local Abbreviation assigns := (assigns (E := E)).
Local Abbreviation field_ok := (field_ok (E := E)).
Local Abbreviation all_empty := (all_empty (E := E)).
Local Abbreviation metadata_column := (metadata_column (E := E)).

Lemma bind_ok {A B} (m : M E A) (k : A → M E B) w b w' :
  (m ≫= k) w = (Ok b, w') →
  ∃ a w1, m w = (Ok a, w1) ∧ k a w1 = (Ok b, w').
Proof.
  unfold mbind, M_bind, bind. destruct (m w) as [[a|e] w1]; [|done].
  intros H. by exists a, w1.
Qed.

Lemma bind_run {A B} (m : M E A) (k : A → M E B) w a w1 :
  m w = (Ok a, w1) → (m ≫= k) w = k a w1.
Proof. intros H. unfold mbind, M_bind, bind. by rewrite H. Qed.

Lemma bind_raise {A B} (m : M E A) (k : A → M E B) w e w1 :
  m w = (Raise e, w1) → (m ≫= k) w = (Raise e, w1).
Proof. intros H. unfold mbind, M_bind, bind. by rewrite H. Qed.

Lemma lift_ok {A} (r : result A) w a w' :
  lift r w = (Ok a, w') → r = Ok a ∧ w' = w.
Proof. unfold lift. by intros [= -> ->]. Qed.

Lemma ret_ok {A} (x : A) w a w' : ret (E := E) x w = (Ok a, w') → a = x ∧ w' = w.
Proof. unfold ret. by intros [= -> ->]. Qed.

Lemma rbind_ok {A B} (r : result A) (k : A → result B) b :
  r ≫= k = Ok b → ∃ a, r = Ok a ∧ k a = Ok b.
Proof. destruct r as [a|e]; [|done]. intros H. by exists a. Qed.

Lemma quiet_ret {A} (a : A) : quiet (ret a).
Proof. by intros w r w' [= _ ->]. Qed.

Lemma quiet_lift {A} (r : result A) : quiet (lift r).
Proof. by intros w r' w' [= _ ->]. Qed.

Lemma quiet_bind {A B} (m : M E A) (k : A → M E B) :
  quiet m → (∀ a w w1, m w = (Ok a, w1) → quiet (k a)) → quiet (m ≫= k).
Proof.
  intros Hm Hk w r w'. unfold mbind, M_bind, bind.
  destruct (m w) as [[a|e] w1] eqn:Hmw.
  - intros H. rewrite (Hk _ _ _ Hmw _ _ _ H). by eapply Hm.
  - intros [= _ <-]. by eapply Hm.
Qed.

Lemma quiet_call_fake f : quiet (call_fake (E := E) f).
Proof.
  intros w r w'. unfold call_fake. destruct (f (w_rng w)). by intros [= _ <-].
Qed.

Lemma quiet_now : quiet (now E).
Proof.
  intros w r w'. unfold now. destruct (datetime_now E (w_clock w)).
  by intros [= _ <-].
Qed.

Lemma getattr_fake_quiet name f : getattr_fake E name = Ok f → quiet f.
Proof.
  unfold getattr_fake. destruct name; try done.
  destruct (fake_getattr E s); [|done]. intros [= <-]. apply quiet_call_fake.
Qed.

Lemma quiet_fake_name : quiet (fake_name E).
Proof.
  unfold fake_name. apply quiet_bind; [apply quiet_lift|].
  intros f w w1 [Hf _]%lift_ok. by eapply getattr_fake_quiet.
Qed.

Lemma quiet_repeat_call {A} n (f : M E A) : quiet f → quiet (repeat_call n f).
Proof.
  intros Hf. induction n as [|n IH]; simpl; [apply quiet_ret|].
  apply quiet_bind; [done|]. intros x _ _ _.
  apply quiet_bind; [done|]. intros xs _ _ _. apply quiet_ret.
Qed.

Lemma quiet_comprehension {A} num_rows (f : M E A) :
  quiet f → quiet (comprehension num_rows f).
Proof.
  intros Hf. unfold comprehension. apply quiet_bind; [apply quiet_lift|].
  intros n _ _ _. by apply quiet_repeat_call.
Qed.

Lemma quiet_for_fold {A B} (body : B → A → M E B) acc l :
  (∀ acc x, quiet (body acc x)) → quiet (for_fold body acc l).
Proof.
  intros Hb. revert acc. induction l as [|x l IH]; intros acc; simpl.
  - apply quiet_ret.
  - apply quiet_bind; [apply Hb|]. intros acc' _ _ _. apply IH.
Qed.

Lemma quiet_field_step num_rows data field : quiet (field_step E num_rows data field).
Proof.
  unfold field_step.
  apply quiet_bind; [apply quiet_lift|]. intros field_name _ _ _.
  apply quiet_bind; [apply quiet_lift|]. intros faker_method_name _ _ _.
  apply quiet_bind; [apply quiet_lift|]. intros f w w1 [Hf _]%lift_ok.
  apply quiet_bind.
  { apply quiet_comprehension. by eapply getattr_fake_quiet. }
  intros column _ _ _.
  apply quiet_bind; [apply quiet_lift|]. intros k _ _ _. apply quiet_ret.
Qed.

Lemma quiet_metadata_step num_rows data metadata_field :
  quiet (metadata_step E num_rows data metadata_field).
Proof.
  unfold metadata_step.
  destruct (_ || _).
  { apply quiet_bind; [apply quiet_comprehension, quiet_now|]. intros c _ _ _.
    apply quiet_bind; [apply quiet_lift|]. intros k _ _ _. apply quiet_ret. }
  destruct (_ || _); [|apply quiet_ret].
  apply quiet_bind; [apply quiet_comprehension, quiet_fake_name|]. intros c _ _ _.
  apply quiet_bind; [apply quiet_lift|]. intros k _ _ _. apply quiet_ret.
Qed.

(** Building a table prints nothing and touches no file, whether it
    succeeds or raises. *)
Lemma quiet_build self dataset_config : quiet (build (E := E) self dataset_config).
Proof.
  unfold build.
  repeat (apply quiet_bind; [apply quiet_lift|]; intros ? _ _ _).
  apply quiet_bind.
  { apply quiet_for_fold. intros. apply quiet_field_step. }
  intros data _ _ _.
  apply quiet_bind; [apply quiet_lift|]. intros enable _ _ _.
  apply quiet_bind.
  { destruct (truthy enable); [|apply quiet_ret].
    repeat (apply quiet_bind; [apply quiet_lift|]; intros ? _ _ _).
    apply quiet_for_fold. intros. apply quiet_metadata_step. }
  intros data' _ _ _.
  apply quiet_bind; [apply quiet_lift|]. intros df _ _ _. apply quiet_ret.
Qed.

(** *** Columns *)

Lemma repeat_call_length {A} n (f : M E A) w l w' :
  repeat_call n f w = (Ok l, w') → length l = n.
Proof.
  revert w l w'. induction n as [|n IH]; intros w l w' H; simpl in H.
  - by apply ret_ok in H as [-> _].
  - apply bind_ok in H as (x & w1 & _ & H).
    apply bind_ok in H as (xs & w2 & Hxs & H).
    apply ret_ok in H as [-> _]. simpl. f_equal. by eapply IH.
Qed.

(** A comprehension over [range(num_rows)] has [range]'s length. *)
Lemma comprehension_length {A} num_rows (f : M E A) w l w' :
  comprehension num_rows f w = (Ok l, w') → range_len num_rows = Ok (length l).
Proof.
  unfold comprehension. intros H.
  apply bind_ok in H as (n & w1 & [Hn ->]%lift_ok & H).
  apply repeat_call_length in H. by subst.
Qed.

Lemma for_fold_assigns key_of Q step l data w data' w' :
  assigns key_of Q step →
  for_fold step data l w = (Ok data', w') →
  od_keys data' = od_keys data ++ first_seen (od_keys data) (omap key_of l)
  ∧ (∀ k, k ∈ omap key_of l → ∃ col, od_get k data' = Some col ∧ Q k col)
  ∧ (∀ k, k ∉ omap key_of l → od_get k data' = od_get k data).
Proof.
  intros Hstep. revert data w.
  induction l as [|x l IH]; intros data w H; simpl in H.
  - apply ret_ok in H as [-> _]. simpl. rewrite app_nil_r.
    split; [done|]. split; [|done]. by intros k ?%elem_of_nil.
  - apply bind_ok in H as (data1 & w1 & Hx & H).
    apply Hstep in Hx. apply IH in H as (Hkeys & Hin & Hout). clear IH.
    simpl. destruct (key_of x) as [k|]; [|by subst].
    destruct Hx as (col & -> & HQ). split; [|split].
    + rewrite Hkeys, od_keys_set. simpl. case_bool_decide as Hk; [done|].
      rewrite <- app_assoc. simpl. do 2 f_equal.
      apply first_seen_equiv. intros k'.
      rewrite elem_of_app, !elem_of_cons, elem_of_nil. tauto.
    + intros k' Hk'. destruct (decide (k' ∈ omap key_of l)) as [?|Hn]; [auto|].
      apply elem_of_cons in Hk' as [->|?]; [|done].
      exists col. rewrite (Hout _ Hn), od_get_set_eq. done.
    + intros k' Hk'. apply not_elem_of_cons in Hk' as [Hne Hk'].
      rewrite (Hout _ Hk'). by apply od_get_set_ne.
Qed.

(** Every entry of a dictionary is read back by its key when keys are
    distinct. *)
Lemma od_get_of_elem {V} (d : odict V) k v :
  NoDup (od_keys d) → (k, v) ∈ d → od_get k d = Some v.
Proof.
  unfold od_keys. induction d as [|[k' v'] d IH]; intros Hnd Hin.
  - by apply elem_of_nil in Hin.
  - rewrite fmap_cons in Hnd. apply NoDup_cons in Hnd as [Hk' Hnd].
    simpl. apply elem_of_cons in Hin as [[= -> ->]|Hin].
    + by rewrite decide_True.
    + rewrite decide_False; [by apply IH|]. intros ->. apply Hk'.
      apply list_elem_of_fmap. by exists (k', v).
Qed.

Lemma field_step_assigns num_rows :
  assigns field_key (fun _ col => range_len num_rows = Ok (length col))
    (field_step E num_rows).
Proof.
  intros data field w data' w' H. unfold field_step in H.
  apply bind_ok in H as (field_name & w1 & [Hname ->]%lift_ok & H).
  apply bind_ok in H as (type_name & w2 & [Htype ->]%lift_ok & H).
  apply bind_ok in H as (f & w3 & [Hf ->]%lift_ok & H).
  apply bind_ok in H as (column & w4 & Hcol & H).
  apply bind_ok in H as (k & w5 & [Hk ->]%lift_ok & H).
  apply ret_ok in H as [-> ->].
  unfold field_key. rewrite Hname. simpl. rewrite Hk. simpl.
  exists column. split; [done|]. by eapply comprehension_length.
Qed.

(** A successful field step found a column name for the field. *)
Lemma field_step_key num_rows data field w data' w' :
  field_step E num_rows data field w = (Ok data', w') →
  is_Some (field_key field).
Proof.
  intros H. unfold field_step in H.
  apply bind_ok in H as (field_name & w1 & [Hname ->]%lift_ok & H).
  apply bind_ok in H as (type_name & w2 & [Htype ->]%lift_ok & H).
  apply bind_ok in H as (f & w3 & [Hf ->]%lift_ok & H).
  apply bind_ok in H as (column & w4 & Hcol & H).
  apply bind_ok in H as (k & w5 & [Hk ->]%lift_ok & H).
  unfold field_key. rewrite Hname. simpl. rewrite Hk. by eexists.
Qed.

Lemma recognized_str metadata_field :
  recognized metadata_field = true →
  ∃ s, metadata_field = VStr s ∧ metadata_key metadata_field = Some (KStr s).
Proof.
  intros Hr. unfold metadata_key. rewrite Hr.
  destruct metadata_field; try done. by eexists.
Qed.

Lemma metadata_step_assigns num_rows :
  assigns metadata_key (metadata_column num_rows) (metadata_step E num_rows).
Proof.
  intros data mf w data' w' H. unfold metadata_step in H.
  destruct (recognized mf) eqn:Hrec.
  - destruct (recognized_str _ Hrec) as (s & -> & ->).
    unfold metadata_column, metadata_source. simpl.
    unfold recognized in Hrec. simpl in *. revert H.
    destruct (String.eqb s "created_at" || String.eqb s "modified_at") eqn:Hat;
      intros H.
    + apply bind_ok in H as (column & w1 & Hcol & H).
      apply bind_ok in H as (k & w2 & [[= <-] ->]%lift_ok & H).
      apply ret_ok in H as [-> ->]. exists column. split; [done|]. eauto.
    + simpl in Hrec. rewrite Hrec in H.
      apply bind_ok in H as (column & w1 & Hcol & H).
      apply bind_ok in H as (k & w2 & [[= <-] ->]%lift_ok & H).
      apply ret_ok in H as [-> ->]. exists column. split; [done|]. eauto.
  - unfold metadata_key. rewrite Hrec. unfold recognized in Hrec.
    apply orb_false_elim in Hrec as [Hrec Hmb].
    apply orb_false_elim in Hrec as [Hrec Hcb].
    rewrite Hrec, Hcb, Hmb in H. simpl in H. by apply ret_ok in H as [-> _].
Qed.

Lemma metadata_column_length num_rows k col :
  metadata_column num_rows k col → range_len num_rows = Ok (length col).
Proof. intros (w1 & w2 & H). by eapply comprehension_length. Qed.

(** *** The stages of [build] *)

(** A successful [build] went through each of its stages. *)
Lemma build_inv self dataset_config w b w' :
  build self dataset_config w = (Ok b, w') →
  ∃ m fl data1 w1 enable,
    py_get dataset_config "rows" (VInt 100) = Ok (b_num_rows b)
    ∧ effective_metadata self dataset_config = Ok m
    ∧ effective_output self dataset_config = Ok (b_output_config b)
    ∧ (fields ← py_get dataset_config "fields" (VList []); py_iter fields) = Ok fl
    ∧ for_fold (field_step E (b_num_rows b)) [] fl w = (Ok data1, w1)
    ∧ py_get m "enable" (VBool false) = Ok enable
    ∧ (if truthy enable
       then ∃ ml,
           (metadata_fields ← py_get m "fields" (VList []);
            py_iter metadata_fields) = Ok ml
           ∧ for_fold (metadata_step E (b_num_rows b)) data1 ml w1
             = (Ok (b_df b), w')
       else b_df b = data1 ∧ w' = w1)
    ∧ DataFrame (b_df b) = Ok (b_df b).
Proof.
  intros H. unfold build in H.
  apply bind_ok in H as (num_rows & ? & [Hrows ->]%lift_ok & H).
  apply bind_ok in H as (mlocal & ? & [Hml ->]%lift_ok & H).
  apply bind_ok in H as (m & ? & [Hm ->]%lift_ok & H).
  apply bind_ok in H as (olocal & ? & [Hol ->]%lift_ok & H).
  apply bind_ok in H as (o & ? & [Ho ->]%lift_ok & H).
  apply bind_ok in H as (fields & ? & [Hfields ->]%lift_ok & H).
  apply bind_ok in H as (fl & ? & [Hfl ->]%lift_ok & H).
  apply bind_ok in H as (data1 & w1 & Hfold & H).
  apply bind_ok in H as (enable & ? & [Hen ->]%lift_ok & H).
  apply bind_ok in H as (data2 & w2 & Hmeta & H).
  apply bind_ok in H as (df & ? & [Hdf ->]%lift_ok & H).
  apply ret_ok in H as [-> ->]. simpl.
  assert (df = data2) as ->.
  { unfold DataFrame in Hdf. by destruct (forallb _ _); simplify_eq. }
  exists m, fl, data1, w1, enable.
  split; [done|]. split; [unfold effective_metadata; by rewrite Hml|].
  split; [unfold effective_output; by rewrite Hol|].
  split; [by rewrite Hfields|]. split; [done|]. split; [done|].
  split; [|done]. destruct (truthy enable).
  - apply bind_ok in Hmeta as (mfs & ? & [Hmfs ->]%lift_ok & Hmeta).
    apply bind_ok in Hmeta as (ml & ? & [Hmli ->]%lift_ok & Hmeta).
    exists ml. split; [by rewrite Hmfs | done].
  - by apply ret_ok in Hmeta as [-> ->].
Qed.

(** What a successful [build] leaves in the table: which columns, in which
    order, of which length, and where the metadata columns come from. *)
Lemma build_columns self dataset_config w b w' :
  build self dataset_config w = (Ok b, w') →
  od_keys (b_df b)
  = first_seen [] (declared_names dataset_config
                   ++ metadata_names self dataset_config)
  ∧ length (declared_names dataset_config)
    = length (declared_fields dataset_config)
  ∧ (∀ k col, od_get k (b_df b) = Some col →
              range_len (b_num_rows b) = Ok (length col))
  ∧ (∀ k, k ∈ metadata_names self dataset_config →
          ∃ col, od_get k (b_df b) = Some col
                 ∧ metadata_column (b_num_rows b) k col).
Proof.
  intros H. apply build_inv in H
    as (m & fl & data1 & w1 & enable & Hrows & Hm & Ho & Hfl & Hfold & Hen & Hmeta & _).
  assert (declared_fields dataset_config = fl) as Hdf.
  { unfold declared_fields. by rewrite Hfl. }
  assert (metadata_enabled self dataset_config = truthy enable) as Henabled.
  { unfold metadata_enabled. by rewrite Hm, Hen. }
  assert (Forall (fun f => is_Some (field_key f)) fl) as Hkeys.
  { clear -Hfold. revert Hfold. generalize ([] : table (cell E)). revert w.
    induction fl as [|f fl IH]; intros w data H; [constructor|].
    simpl in H. apply bind_ok in H as (d1 & w2 & Hf & H).
    constructor; [by eapply field_step_key | by eapply IH]. }
  pose proof (for_fold_assigns _ _ _ _ _ _ _ _
                (field_step_assigns (b_num_rows b)) Hfold)
    as (Hk1 & Hin1 & Hout1).
  simpl in Hk1. fold (declared_names dataset_config) in *.
  unfold declared_names, metadata_names. rewrite Hdf, Henabled.
  split; [|split].
  - destruct (truthy enable).
    + destruct Hmeta as (ml & Hml & Hmfold).
      assert (requested_metadata self dataset_config = ml) as ->.
      { unfold requested_metadata. rewrite Hm. simpl. by rewrite Hml. }
      pose proof (for_fold_assigns _ _ _ _ _ _ _ _
                    (metadata_step_assigns (b_num_rows b)) Hmfold)
        as (Hk2 & _ & _).
      rewrite Hk2, Hk1, first_seen_app. f_equal.
      apply first_seen_equiv. intros k.
      rewrite elem_of_first_seen, elem_of_app, elem_of_nil. tauto.
    + destruct Hmeta as [-> _]. by rewrite app_nil_r.
  - clear -Hkeys. induction Hkeys as [|f fl [k Hk] _ IH]; [done|].
    csimpl. rewrite Hk. csimpl. by rewrite IH.
  - destruct (truthy enable).
    + destruct Hmeta as (ml & Hml & Hmfold).
      assert (requested_metadata self dataset_config = ml) as ->.
      { unfold requested_metadata. rewrite Hm. simpl. by rewrite Hml. }
      pose proof (for_fold_assigns _ _ _ _ _ _ _ _
                    (metadata_step_assigns (b_num_rows b)) Hmfold)
        as (_ & Hin2 & Hout2).
      split; [|done]. intros k col Hget.
      destruct (decide (k ∈ omap metadata_key ml)) as [Hk|Hk].
      * destruct (Hin2 _ Hk) as (col' & Hget' & Hcol').
        rewrite Hget in Hget'. injection Hget' as <-.
        by eapply metadata_column_length.
      * rewrite (Hout2 _ Hk) in Hget.
        destruct (decide (k ∈ omap field_key fl)) as [Hf|Hf].
        -- destruct (Hin1 _ Hf) as (col' & Hget' & Hcol').
           by rewrite Hget in Hget'; injection Hget' as <-.
        -- by rewrite (Hout1 _ Hf) in Hget.
    + destruct Hmeta as [-> _]. split; [|by intros k ?%elem_of_nil].
      intros k col Hget.
      destruct (decide (k ∈ omap field_key fl)) as [Hf|Hf].
      * destruct (Hin1 _ Hf) as (col' & Hget' & Hcol').
        by rewrite Hget in Hget'; injection Hget' as <-.
      * by rewrite (Hout1 _ Hf) in Hget.
Qed.

Lemma build_keys_NoDup self dataset_config w b w' :
  build self dataset_config w = (Ok b, w') → NoDup (od_keys (b_df b)).
Proof.
  intros H. apply build_columns in H as (-> & _). apply first_seen_NoDup.
Qed.

(** *** Row count *)

(** C2.  For every dataset spec whose resolved [rows] is a non-negative
    integer (the data model's [rows] is a positive integer), every column of
    the built table, of a declared field or of metadata alike, has length
    exactly [rows]; the resolved [rows] is the dataset's value, and 100 when
    the dataset spec omits it, in which case every column has 100 cells. *)
Theorem build_row_count self dataset_config w b w' :
  build self dataset_config w = (Ok b, w') →
  py_get dataset_config "rows" (VInt 100) = Ok (b_num_rows b)
  ∧ (∀ n, b_num_rows b = VInt n → 0 ≤ n →
          ∀ k col, (k, col) ∈ b_df b → Z.of_nat (length col) = n)
  ∧ (∀ d, dataset_config = VDict d → od_get (KStr "rows") d = None →
          b_num_rows b = VInt 100
          ∧ ∀ k col, (k, col) ∈ b_df b → length col = 100%nat)
  ∧ (∀ k col, (k, col) ∈ b_df b → range_len (b_num_rows b) = Ok (length col)).
Proof.
  intros H. pose proof (build_keys_NoDup _ _ _ _ _ H) as Hnd.
  pose proof (build_columns _ _ _ _ _ H) as (_ & _ & Hlen & _).
  apply build_inv in H as (_ & _ & _ & _ & _ & Hrows & _).
  assert (∀ k col, (k, col) ∈ b_df b →
                   range_len (b_num_rows b) = Ok (length col)) as Hcol.
  { intros k col Hin. apply od_get_of_elem in Hin; [|done]. by eapply Hlen. }
  split; [done|]. split; [|split; [|done]].
  - intros n Hn Hpos k col Hin. apply Hcol in Hin. rewrite Hn in Hin.
    injection Hin as Hin. lia.
  - intros d -> Hnone. simpl in Hrows. unfold od_get_default in Hrows.
    rewrite Hnone in Hrows. injection Hrows as Hrows. split; [done|].
    intros k col Hin. apply Hcol in Hin. rewrite <- Hrows in Hin.
    injection Hin as Hin. lia.
Qed.

(** *** Column order and metadata gating *)

(** C4, as the code has it.  The columns of a built table are the declared
    field names followed by the recognized metadata names that the
    effective metadata configuration lists, the latter only when its
    [enable] is truthy, each name standing once, where it was first
    assigned.  When those names are all different this is the declared
    fields followed by the metadata fields.  A column that no field declares
    is there exactly when metadata is enabled and a recognized requested
    name asks for it, and a name outside the four recognized ones changes
    nothing. *)
Theorem build_column_order self dataset_config w b w' :
  build self dataset_config w = (Ok b, w') →
  od_keys (b_df b)
  = first_seen [] (declared_names dataset_config
                   ++ metadata_names self dataset_config)
  ∧ length (declared_names dataset_config)
    = length (declared_fields dataset_config)
  ∧ (metadata_enabled self dataset_config = false →
     od_keys (b_df b) = first_seen [] (declared_names dataset_config))
  ∧ (NoDup (declared_names dataset_config ++ metadata_names self dataset_config) →
     od_keys (b_df b)
     = declared_names dataset_config ++ metadata_names self dataset_config)
  ∧ (∀ k, k ∈ od_keys (b_df b) ↔
          k ∈ declared_names dataset_config
          ∨ (metadata_enabled self dataset_config = true
             ∧ ∃ metadata_field,
                 metadata_field ∈ requested_metadata self dataset_config
                 ∧ recognized metadata_field = true
                 ∧ to_key metadata_field = Ok k))
  ∧ (∀ metadata_field data w0,
        recognized metadata_field = false →
        metadata_step E (b_num_rows b) data metadata_field w0 = (Ok data, w0)).
Proof.
  intros H. apply build_columns in H as (Hkeys & Hlen & _).
  split; [done|]. split; [done|]. split; [|split; [|split]].
  - intros Hoff. rewrite Hkeys. unfold metadata_names. rewrite Hoff.
    by rewrite app_nil_r.
  - intros Hnd. rewrite Hkeys. apply first_seen_id; [done|].
    intros k _. apply not_elem_of_nil.
  - intros k. rewrite Hkeys, elem_of_first_seen, elem_of_app.
    unfold metadata_names. destruct (metadata_enabled _ _).
    + rewrite list_elem_of_omap. split.
      * intros [[?|(mf & Hmf & Hk)] _]; [by left|]. right. split; [done|].
        exists mf. split; [done|]. unfold metadata_key in Hk.
        destruct (recognized mf); [|done]. split; [done|].
        by destruct (to_key mf); simplify_eq/=.
      * intros [?|(_ & mf & Hmf & Hrec & Hk)].
        -- split; [by left | apply not_elem_of_nil].
        -- split; [|apply not_elem_of_nil]. right. exists mf.
           split; [done|]. unfold metadata_key. by rewrite Hrec, Hk.
    + rewrite elem_of_nil. split; [tauto|].
      intros [?|[? _]]; [tauto|done].
  - intros mf data w0 Hrec. unfold metadata_step. unfold recognized in Hrec.
    apply orb_false_elim in Hrec as [Hrec Hmb].
    apply orb_false_elim in Hrec as [Hrec Hcb].
    by rewrite Hrec, Hcb, Hmb.
Qed.

(** C8.  When metadata is enabled and a recognized requested name is also
    the name of a declared field, the table has that column once, at the
    place the field gave it (among the field columns, not after them), and
    its cells are the metadata values drawn by the metadata step. *)
Theorem metadata_overwrites_field self dataset_config w b w' metadata_field k :
  build self dataset_config w = (Ok b, w') →
  metadata_enabled self dataset_config = true →
  metadata_field ∈ requested_metadata self dataset_config →
  recognized metadata_field = true →
  to_key metadata_field = Ok k →
  k ∈ declared_names dataset_config →
  NoDup (od_keys (b_df b))
  ∧ (∃ i, first_seen [] (declared_names dataset_config) !! i = Some k
          ∧ (i < length (first_seen [] (declared_names dataset_config)))%nat
          ∧ od_keys (b_df b) !! i = Some k)
  ∧ (∃ col, od_get k (b_df b) = Some col
            ∧ metadata_column (b_num_rows b) k col).
Proof.
  intros H Hon Hreq Hrec Hk Hdecl.
  pose proof (build_keys_NoDup _ _ _ _ _ H) as Hnd.
  apply build_columns in H as (Hkeys & _ & _ & Hmeta).
  split; [done|]. split.
  - destruct (first_seen_lookup _ _ Hdecl) as (i & Hi & Hlt).
    exists i. split; [done|]. split; [done|].
    rewrite Hkeys, first_seen_app. by apply lookup_app_l_Some.
  - apply Hmeta. unfold metadata_names. rewrite Hon.
    apply list_elem_of_omap. exists metadata_field. split; [done|].
    unfold metadata_key. by rewrite Hrec, Hk.
Qed.

(** *** What [write] does to the world *)

Lemma str_eqb_true v s : str_eqb v s = true ↔ v = VStr s.
Proof.
  destruct v; simpl; try by split.
  rewrite String.eqb_eq. split; [by intros -> | by intros [= ->]].
Qed.

Lemma str_eqb_false v s : str_eqb v s = false ↔ v ≠ VStr s.
Proof.
  rewrite <- str_eqb_true. by destruct (str_eqb v s).
Qed.

Lemma world_eta w : w = World (w_rng w) (w_clock w) (w_trace w ++ []).
Proof. destruct w. simpl. by rewrite app_nil_r. Qed.

Lemma logs_lift {A} P (r : result A) : logs P (lift r).
Proof. intros w r' w' [= _ <-]. exists []. split; [apply world_eta | constructor]. Qed.

Lemma logs_emit P e : P e → logs P (emit e).
Proof. intros He w r w' [= _ <-]. exists [e]. split; [done | by constructor]. Qed.

Lemma logs_bind {A B} P (m : M E A) (k : A → M E B) :
  logs P m → (∀ a w w1, m w = (Ok a, w1) → logs P (k a)) → logs P (m ≫= k).
Proof.
  intros Hm Hk w r w'. unfold mbind, M_bind, bind.
  destruct (m w) as [[a|e] w1] eqn:Hmw.
  - intros H. destruct (Hm _ _ _ Hmw) as (evs1 & -> & H1).
    destruct (Hk _ _ _ Hmw _ _ _ H) as (evs2 & -> & H2). simpl.
    exists (evs1 ++ evs2). rewrite app_assoc. split; [done|].
    by apply Forall_app.
  - intros [= _ <-]. by apply Hm in Hmw.
Qed.

Lemma logs_makedirs P directory : P (EMakedirs directory) → logs P (makedirs directory).
Proof.
  intros HP w r w'. unfold makedirs. destruct (makedirs_exn _ _ _).
  - intros [= _ <-]. exists []. split; [apply world_eta | constructor].
  - by apply logs_emit.
Qed.

Lemma logs_to_csv P df file sep : P (EWrite file sep df) → logs P (to_csv df file sep).
Proof.
  intros HP w r w'. unfold to_csv. destruct (to_csv_exn _ _ _).
  - intros [= _ <-]. exists []. split; [apply world_eta | constructor].
  - by apply logs_emit.
Qed.

Lemma write_logs name b : logs (written_by name b) (write name b).
Proof.
  unfold write.
  apply logs_bind; [by apply logs_emit|]. intros _ _ _ _.
  apply logs_bind; [by apply logs_emit|]. intros _ _ _ _.
  apply logs_bind; [apply logs_lift|]. intros directory _ _ _.
  apply logs_bind; [by apply logs_makedirs|]. intros _ _ _ _.
  apply logs_bind; [apply logs_lift|]. intros fmt w w1 [Hfmt _]%lift_ok.
  apply logs_bind; [apply logs_lift|]. intros file w2 w3 [Hfile _]%lift_ok.
  assert (p_name file = name ∧ p_format file = fmt) as [Hn Hf].
  { unfold path_join in Hfile. by destruct directory; simplify_eq. }
  destruct (str_eqb fmt "csv") eqn:Hcsv; [|destruct (str_eqb fmt "tsv") eqn:Htsv].
  - apply logs_to_csv. intros ? ? ? [= <- <- <-]. apply str_eqb_true in Hcsv.
    rewrite Hf. repeat split; try done. by left.
  - apply logs_to_csv. intros ? ? ? [= <- <- <-]. apply str_eqb_true in Htsv.
    rewrite Hf. repeat split; try done. by right.
  - by apply logs_emit.
Qed.

Lemma writes_app (tr1 tr2 : list (event (cell E))) :
  writes (tr1 ++ tr2) = writes tr1 ++ writes tr2.
Proof. apply filter_app. Qed.

(** *** Non-positive row counts *)

Lemma comprehension_nonpositive {A} n (f : M E A) w :
  n ≤ 0 → comprehension (VInt n) f w = (Ok [], w).
Proof.
  intros Hn. unfold comprehension, mbind, M_bind, bind, lift. simpl.
  by replace (Z.to_nat n) with 0%nat by lia.
Qed.

Lemma all_empty_set k data : all_empty data → all_empty (od_set k [] data).
Proof.
  intros Hd k' col [[= _ ->]|Hin]%od_set_elem_of; [done|]. by eapply Hd.
Qed.

Lemma field_step_nonpositive n data field w :
  n ≤ 0 → field_ok field →
  ∃ k, field_step E (VInt n) data field w = (Ok (od_set k [] data), w).
Proof.
  intros Hn (name & type & f & k & Hname & Htype & Hf & Hk). exists k.
  unfold field_step, mbind, M_bind, bind, lift.
  rewrite Hname, Htype, Hf, comprehension_nonpositive, Hk by done. done.
Qed.

Lemma fields_nonpositive n fl data w :
  n ≤ 0 → Forall field_ok fl → all_empty data →
  ∃ data', for_fold (field_step E (VInt n)) data fl w = (Ok data', w)
           ∧ all_empty data'.
Proof.
  intros Hn Hfl. revert data. induction Hfl as [|f fl Hf _ IH]; intros data Hd.
  - by exists data.
  - destruct (field_step_nonpositive n data f w Hn Hf) as (k & Hstep).
    destruct (IH (od_set k [] data)) as (data' & Hfold & Hd');
      [by apply all_empty_set|].
    exists data'. split; [|done]. simpl. by rewrite (bind_run _ _ _ _ _ Hstep).
Qed.

Lemma metadata_step_nonpositive n data metadata_field w :
  n ≤ 0 → all_empty data →
  ∃ data', metadata_step E (VInt n) data metadata_field w = (Ok data', w)
           ∧ all_empty data'.
Proof.
  intros Hn Hd. unfold metadata_step.
  destruct (recognized metadata_field) eqn:Hrec.
  - destruct (recognized_str _ Hrec) as (s & -> & _).
    exists (od_set (KStr s) [] data). split; [|by apply all_empty_set].
    unfold recognized in Hrec. simpl in *.
    destruct (String.eqb s "created_at" || String.eqb s "modified_at").
    + unfold mbind, M_bind, bind, lift.
      by rewrite comprehension_nonpositive.
    + simpl in Hrec. rewrite Hrec. unfold mbind, M_bind, bind, lift.
      by rewrite comprehension_nonpositive.
  - exists data. split; [|done]. unfold recognized in Hrec.
    apply orb_false_elim in Hrec as [Hrec Hmb].
    apply orb_false_elim in Hrec as [Hrec Hcb].
    by rewrite Hrec, Hcb, Hmb.
Qed.

Lemma metadata_nonpositive n ml data w :
  n ≤ 0 → all_empty data →
  ∃ data', for_fold (metadata_step E (VInt n)) data ml w = (Ok data', w)
           ∧ all_empty data'.
Proof.
  intros Hn. revert data. induction ml as [|mf ml IH]; intros data Hd.
  - by exists data.
  - destruct (metadata_step_nonpositive n data mf w Hn Hd) as (d1 & Hstep & Hd1).
    destruct (IH d1 Hd1) as (data' & Hfold & Hd').
    exists data'. split; [|done]. simpl. by rewrite (bind_run _ _ _ _ _ Hstep).
Qed.

Lemma all_empty_n_rows data : all_empty data → n_rows data = 0%nat.
Proof.
  destruct data as [|[k col] data]; [done|]. intros Hd. simpl.
  rewrite (Hd k col); [done|]. apply elem_of_cons. by left.
Qed.

Lemma DataFrame_all_empty data : all_empty data → DataFrame data = Ok data.
Proof.
  intros Hd. unfold DataFrame. rewrite (all_empty_n_rows _ Hd).
  assert (forallb (fun kc : key * list (cell E) => (length kc.2 =? 0)%nat) data
          = true) as ->; [|done].
  apply forallb_forall. intros [k col] Hin. simpl.
  apply list_elem_of_In in Hin. by rewrite (Hd _ _ Hin).
Qed.

Lemma to_csv_records_all_empty data :
  all_empty data → to_csv_records data = (od_keys data, []).
Proof. intros Hd. unfold to_csv_records. by rewrite (all_empty_n_rows _ Hd). Qed.

(** With the [csv] format, a directory that can be made and a file that can
    be written, [write] prints its two notices, makes the directory and
    writes the table. *)
Lemma write_csv_run name b w directory :
  py_get (b_output_config b) "directory" (VStr "output/") = Ok (VStr directory) →
  py_get (b_output_config b) "format" (VStr "csv") = Ok (VStr "csv") →
  makedirs_exn E
    (w_trace w ++ [EPrint (MsgGenerated (b_num_rows b) name);
                   EPrint (MsgHead (head_rows 10 (b_df b)))])
    (VStr directory) = None →
  to_csv_exn E
    (w_trace w ++ [EPrint (MsgGenerated (b_num_rows b) name);
                   EPrint (MsgHead (head_rows 10 (b_df b)));
                   EMakedirs (VStr directory)])
    (OutPath directory name (VStr "csv")) = None →
  write name b w
  = (Ok (),
     World (w_rng w) (w_clock w)
       (w_trace w ++ [EPrint (MsgGenerated (b_num_rows b) name);
                      EPrint (MsgHead (head_rows 10 (b_df b)));
                      EMakedirs (VStr directory);
                      EWrite (OutPath directory name (VStr "csv")) Comma (b_df b)])).
Proof.
  intros Hdir Hfmt Hmk Hcsv. unfold write.
  erewrite bind_run by reflexivity. erewrite bind_run by reflexivity.
  erewrite bind_run by (unfold lift; rewrite Hdir; reflexivity).
  erewrite bind_run.
  2: { unfold makedirs. simpl. rewrite <- app_assoc. simpl.
       rewrite Hmk. reflexivity. }
  erewrite bind_run by (unfold lift; rewrite Hfmt; reflexivity).
  erewrite bind_run by reflexivity.
  simpl. unfold to_csv. simpl. rewrite <- !app_assoc. simpl.
  rewrite Hcsv. unfold emit. simpl. by rewrite <- !app_assoc.
Qed.

(** C10.  A dataset whose [rows] is zero or negative builds like any other:
    nothing checks the sign.  When its fields can be built at all (and the
    metadata list, if enabled, can be iterated), the build succeeds without
    drawing a value or reading the clock, every column is empty, and the
    file written from the table has its header record and no row. *)
Theorem build_nonpositive_rows self d w n m o fl :
  od_get (KStr "rows") d = Some (VInt n) →
  n ≤ 0 →
  effective_metadata self (VDict d) = Ok m →
  effective_output self (VDict d) = Ok o →
  py_iter (od_get_default (KStr "fields") (VList []) d) = Ok fl →
  Forall field_ok fl →
  (metadata_enabled self (VDict d) = true →
   ∃ ml, (metadata_fields ← py_get m "fields" (VList []);
          py_iter metadata_fields) = Ok ml) →
  ∃ b, build self (VDict d) w = (Ok b, w)
       ∧ b_num_rows b = VInt n
       ∧ b_output_config b = o
       ∧ (∀ k col, (k, col) ∈ b_df b → col = [])
       ∧ to_csv_records (b_df b) = (od_keys (b_df b), [])
       ∧ (∀ name w1 r w2,
             write name b w1 = (r, w2) →
             ∀ file sep df,
               EWrite file sep df ∈ w_trace w2 →
               EWrite file sep df ∈ w_trace w1
               ∨ to_csv_records df = (od_keys (b_df b), []))
       ∧ (∀ name directory,
             py_get o "directory" (VStr "output/") = Ok (VStr directory) →
             py_get o "format" (VStr "csv") = Ok (VStr "csv") →
             makedirs_exn E
               (w_trace w ++ [EPrint (MsgGenerated (VInt n) name);
                              EPrint (MsgHead (head_rows 10 (b_df b)))])
               (VStr directory) = None →
             to_csv_exn E
               (w_trace w ++ [EPrint (MsgGenerated (VInt n) name);
                              EPrint (MsgHead (head_rows 10 (b_df b)));
                              EMakedirs (VStr directory)])
               (OutPath directory name (VStr "csv")) = None →
             run_dataset self (name, VDict d) w
             = (Ok (),
                World (w_rng w) (w_clock w)
                  (w_trace w
                   ++ [EPrint (MsgGenerated (VInt n) name);
                       EPrint (MsgHead (head_rows 10 (b_df b)));
                       EMakedirs (VStr directory);
                       EWrite (OutPath directory name (VStr "csv")) Comma
                         (b_df b)]))).
Proof.
  intros Hrows Hn Hm Ho Hfl Hok Hml.
  destruct (fields_nonpositive n fl [] w Hn Hok) as (data1 & Hfold & Hd1).
  { by intros k col ?%elem_of_nil. }
  assert (∃ md, m = VDict md) as [md ->].
  { unfold effective_metadata, _merge_configs in Hm. simpl in Hm.
    destruct (global_metadata self); try done.
    destruct (py_dict_update _ _); simplify_eq/=. by eexists. }
  assert (metadata_enabled self (VDict d)
          = truthy (od_get_default (KStr "enable") (VBool false) md)) as Hen.
  { unfold metadata_enabled. by rewrite Hm. }
  assert (∃ data2,
    (if truthy (od_get_default (KStr "enable") (VBool false) md)
     then
       metadata_fields ← lift (py_get (VDict md) "fields" (VList []));
       metadata_fields ← lift (py_iter metadata_fields);
       for_fold (metadata_step E (VInt n)) data1 metadata_fields
     else ret data1) w = (Ok data2, w) ∧ all_empty data2) as (data2 & Hmeta & Hd2).
  { rewrite <- Hen. destruct (metadata_enabled self (VDict d));
      [|by exists data1].
    destruct Hml as (ml & Hml); [done|].
    destruct (metadata_nonpositive n ml data1 w Hn Hd1) as (data2 & H2 & Hd2).
    exists data2. split; [|done].
    apply rbind_ok in Hml as (mfs & Hmfs & Hiter).
    erewrite bind_run by (unfold lift; rewrite Hmfs; reflexivity).
    erewrite bind_run by (unfold lift; rewrite Hiter; reflexivity). done. }
  assert (build self (VDict d) w = (Ok (Built (VInt n) o data2), w)) as Hbuild.
  { unfold build. unfold effective_metadata in Hm. unfold effective_output in Ho.
    simpl in Hm, Ho.
    erewrite bind_run
      by (unfold lift; simpl; unfold od_get_default; rewrite Hrows; reflexivity).
    simpl. erewrite bind_run by reflexivity.
    erewrite bind_run by (unfold lift; rewrite Hm; reflexivity).
    erewrite bind_run by reflexivity.
    erewrite bind_run by (unfold lift; rewrite Ho; reflexivity).
    erewrite bind_run by reflexivity.
    erewrite bind_run by (unfold lift; rewrite Hfl; reflexivity).
    erewrite bind_run by exact Hfold.
    erewrite bind_run by reflexivity.
    erewrite bind_run by exact Hmeta.
    erewrite bind_run
      by (unfold lift; rewrite (DataFrame_all_empty _ Hd2); reflexivity).
    done. }
  exists (Built (VInt n) o data2). simpl.
  split; [done|]. split; [done|]. split; [done|]. split; [done|].
  split; [by apply to_csv_records_all_empty|]. split.
  - intros name w1 r w2 Hw file sep df Hin.
    apply write_logs in Hw as (evs & -> & Hevs). simpl in Hin.
    apply elem_of_app in Hin as [?|Hin]; [by left|]. right.
    rewrite Forall_forall in Hevs. destruct (Hevs _ Hin _ _ _ eq_refl) as (-> & _).
    by apply to_csv_records_all_empty.
  - intros name directory Hdir Hfmt Hmk Hcsv. unfold run_dataset. simpl.
    rewrite (bind_run _ _ _ _ _ Hbuild). by apply write_csv_run.
Qed.

(** *** Unsupported output formats *)

Lemma writes_none (evs : list (event (cell E))) :
  Forall (fun e => is_write e = false) evs → writes evs = [].
Proof.
  induction 1 as [|e evs He _ IH]; [done|].
  unfold writes in *. rewrite filter_cons_False; [done|]. by rewrite He.
Qed.

(** C5.  A dataset whose effective [format] is neither [csv] nor [tsv]
    writes no file, whatever else happens to it.  When its table builds and
    its directory can be made, its turn ends normally: the last thing it
    does is print the diagnostic, and the loop goes on with the datasets
    that follow. *)
Theorem unsupported_format_skips_write self name dataset_config o fmt :
  effective_output self dataset_config = Ok o →
  py_get o "format" (VStr "csv") = Ok fmt →
  fmt ≠ VStr "csv" →
  fmt ≠ VStr "tsv" →
  (∀ w r w',
      run_dataset self (name, dataset_config) w = (r, w') →
      writes (w_trace w') = writes (w_trace w))
  ∧ (∀ w b w1 d,
        build self dataset_config w = (Ok b, w1) →
        py_get o "directory" (VStr "output/") = Ok (VStr d) →
        makedirs_exn E
          (w_trace w1 ++ [EPrint (MsgGenerated (b_num_rows b) name);
                          EPrint (MsgHead (head_rows 10 (b_df b)))])
          (VStr d) = None →
        let w2 :=
          World (w_rng w1) (w_clock w1)
            (w_trace w1 ++ [EPrint (MsgGenerated (b_num_rows b) name);
                            EPrint (MsgHead (head_rows 10 (b_df b)));
                            EMakedirs (VStr d);
                            EPrint (MsgUnsupported fmt)]) in
        run_dataset self (name, dataset_config) w = (Ok (), w2)
        ∧ ∀ rest,
            for_each (run_dataset self) ((name, dataset_config) :: rest) w
            = for_each (run_dataset self) rest w2).
Proof.
  intros Ho Hfmt Hcsv Htsv. split.
  - intros w r w'. unfold run_dataset. simpl.
    destruct (build self dataset_config w) as [[b|e] w1] eqn:Hb.
    + rewrite (bind_run _ _ _ _ _ Hb). intros Hw.
      pose proof (quiet_build _ _ _ _ _ Hb) as Htr.
      apply build_inv in Hb as (_ & _ & _ & _ & _ & _ & _ & Ho' & _).
      rewrite Ho in Ho'. injection Ho' as ->.
      apply write_logs in Hw as (evs & -> & Hevs). simpl.
      rewrite writes_app, Htr, (writes_none evs), app_nil_r; [done|].
      eapply Forall_impl; [exact Hevs|]. intros [m|dir|file sep df] He; try done.
      destruct (He _ _ _ eq_refl) as (_ & _ & Hf & Hcase).
      rewrite Hfmt in Hf. injection Hf as ->. by destruct Hcase as [[? _]|[? _]].
    + rewrite (bind_raise _ _ _ _ _ Hb). intros [= _ <-].
      by rewrite (quiet_build _ _ _ _ _ Hb).
  - intros w b w1 d Hb Hdir Hmk w2.
    assert (b_output_config b = o) as Hbo.
    { apply build_inv in Hb as (_ & _ & _ & _ & _ & _ & _ & Ho' & _).
      rewrite Ho in Ho'. by injection Ho'. }
    assert (run_dataset self (name, dataset_config) w = (Ok (), w2)) as Hrun.
    { unfold run_dataset. simpl. rewrite (bind_run _ _ _ _ _ Hb).
      unfold write. rewrite Hbo.
      erewrite bind_run by reflexivity. erewrite bind_run by reflexivity.
      erewrite bind_run by (unfold lift; rewrite Hdir; reflexivity).
      erewrite bind_run.
      2: { unfold makedirs. simpl. rewrite <- app_assoc. simpl.
           rewrite Hmk. reflexivity. }
      erewrite bind_run by (unfold lift; rewrite Hfmt; reflexivity).
      erewrite bind_run by reflexivity.
      apply str_eqb_false in Hcsv, Htsv. rewrite Hcsv, Htsv.
      unfold print, emit, w2. simpl. by rewrite <- !app_assoc. }
    split; [done|]. intros rest. simpl. by rewrite (bind_run _ _ _ _ _ Hrun).
Qed.

(** *** The loop over the datasets *)

Lemma for_each_app {A} (body : A → M E ()) (l1 l2 : list A) w :
  for_each body (l1 ++ l2) w
  = match for_each body l1 w with
    | (Ok _, w1) => for_each body l2 w1
    | (Raise e, w1) => (Raise e, w1)
    end.
Proof.
  revert w. induction l1 as [|x l1 IH]; intros w; [done|].
  simpl. unfold mbind, M_bind, bind.
  destruct (body x w) as [[[]|e] w1]; [apply IH | done].
Qed.

(** C1, as the code has it.  [generate] takes the datasets in declaration
    order, each once; nothing catches an exception, so the first dataset
    that fails ends the run with its exception and the datasets declared
    after it are not attempted.  When no dataset fails, all are processed. *)
Theorem generate_stops_at_first_failure self pre item post w w1 :
  (datasets ← py_get (config self) "datasets" (VDict []);
   py_items datasets) = Ok (pre ++ item :: post) →
  for_each (run_dataset self) pre w = (Ok (), w1) →
  generate self w
  = match run_dataset self item w1 with
    | (Ok _, w2) => for_each (run_dataset self) post w2
    | (Raise e, w2) => (Raise e, w2)
    end
  ∧ (∀ e w2, run_dataset self item w1 = (Raise e, w2) →
             generate self w = (Raise e, w2)).
Proof.
  intros Hds Hpre.
  assert (generate self w
          = match run_dataset self item w1 with
            | (Ok _, w2) => for_each (run_dataset self) post w2
            | (Raise e, w2) => (Raise e, w2)
            end) as Hgen.
  { unfold generate. apply rbind_ok in Hds as (datasets & Hget & Hitems).
    erewrite bind_run by (unfold lift; rewrite Hget; reflexivity).
    erewrite bind_run by (unfold lift; rewrite Hitems; reflexivity).
    rewrite for_each_app, Hpre. simpl. unfold mbind, M_bind, bind.
    by destruct (run_dataset self item w1) as [[[]|e] w2]. }
  split; [done|]. intros e w2 Hfail. by rewrite Hgen, Hfail.
Qed.

(** *** Loading the configuration *)

(** C6.  A path that does not exist loads as the empty configuration, not
    as an error; the generator made from it has the empty global sections,
    and running it does nothing and ends normally. *)
Theorem missing_config_is_empty config_path :
  config_file E config_path = None →
  _load_config E config_path = Ok (VDict [])
  ∧ __init__ E config_path = Ok (Generator (VDict []) (VDict []) (VDict []))
  ∧ ∀ w, generate (Generator (VDict []) (VDict []) (VDict [])) w = (Ok (), w).
Proof.
  intros Hnone.
  assert (_load_config E config_path = Ok (VDict [])) as Hload.
  { unfold _load_config. by rewrite Hnone. }
  split; [done|]. split; [|done].
  unfold __init__. by rewrite Hload.
Qed.

(** C9.  A file that exists and parses to the null document loads as
    [None], and the constructor then fails: [None] has no [get]. *)
Theorem null_config_fails config_path :
  config_file E config_path = Some (Ok VNone) →
  _load_config E config_path = Ok VNone
  ∧ __init__ E config_path = Raise AttributeError.
Proof.
  intros Hnull.
  assert (_load_config E config_path = Ok VNone) as Hload.
  { unfold _load_config. by rewrite Hnull. }
  split; [done|]. unfold __init__. by rewrite Hload.
Qed.

End Facts.

(** ** The program run on concrete configurations *)

Lemma build_row_count_witness :
  build (Demo.gen []) Demo.people Demo.w0
  = (Ok (Built (E := Demo.env) (VInt 2) (VDict []) Demo.people_df),
     World (E := Demo.env) 4%nat 0 [])
  ∧ 0 ≤ 2
  ∧ ∀ k col, (k, col) ∈ Demo.people_df → Z.of_nat (length col) = 2.
Proof.
  assert (build (Demo.gen []) Demo.people Demo.w0
          = (Ok (Built (E := Demo.env) (VInt 2) (VDict []) Demo.people_df),
             World (E := Demo.env) 4%nat 0 [])) as Hb.
  { vm_compute. reflexivity. }
  assert (0 ≤ 2) as Hpos by lia.
  split; [exact Hb|]. split; [exact Hpos|].
  exact (proj1 (proj2 (build_row_count _ _ _ _ _ Hb)) 2 eq_refl Hpos).
Defined.

Lemma build_column_order_witness :
  build (Demo.gen []) Demo.audited Demo.w0
  = (Ok (Built (E := Demo.env) (VInt 1) (VDict []) Demo.audited_df),
     World (E := Demo.env) 2%nat 1 [])
  ∧ NoDup (declared_names Demo.audited
           ++ metadata_names (Demo.gen []) Demo.audited)
  ∧ od_keys Demo.audited_df
    = declared_names Demo.audited ++ metadata_names (Demo.gen []) Demo.audited.
Proof.
  assert (build (Demo.gen []) Demo.audited Demo.w0
          = (Ok (Built (E := Demo.env) (VInt 1) (VDict []) Demo.audited_df),
             World (E := Demo.env) 2%nat 1 [])) as Hb.
  { vm_compute. reflexivity. }
  assert (NoDup (declared_names Demo.audited
                 ++ metadata_names (Demo.gen []) Demo.audited)) as Hnd.
  { refine (bool_decide_unpack _ _). vm_compute. exact I. }
  split; [exact Hb|]. split; [exact Hnd|].
  exact (proj1 (proj2 (proj2 (proj2 (build_column_order _ _ _ _ _ Hb)))) Hnd).
Defined.

(** A field named [created_at] with the metadata field [created_at]
    requested: the table has two columns, not the three of "declared fields
    followed by metadata fields". *)
Lemma build_column_order_collision :
  let b := Built (E := Demo.env) (VInt 2) (VDict []) Demo.stamped_df in
  build (Demo.gen []) Demo.stamped Demo.w0
  = (Ok b, World (E := Demo.env) 4%nat 2 [])
  ∧ metadata_enabled (Demo.gen []) Demo.stamped = true
  ∧ declared_names Demo.stamped ++ metadata_names (Demo.gen []) Demo.stamped
    = [KStr "created_at"; KStr "city"; KStr "created_at"]
  ∧ od_keys (b_df b)
    ≠ declared_names Demo.stamped ++ metadata_names (Demo.gen []) Demo.stamped.
Proof.
  split; [vm_compute; reflexivity|]. split; [reflexivity|].
  split; [reflexivity|]. vm_compute. discriminate.
Qed.

Lemma metadata_overwrites_field_witness :
  build (Demo.gen []) Demo.stamped Demo.w0
  = (Ok (Built (E := Demo.env) (VInt 2) (VDict []) Demo.stamped_df),
     World (E := Demo.env) 4%nat 2 [])
  ∧ metadata_enabled (Demo.gen []) Demo.stamped = true
  ∧ VStr "created_at" ∈ requested_metadata (Demo.gen []) Demo.stamped
  ∧ recognized (VStr "created_at") = true
  ∧ KStr "created_at" ∈ declared_names Demo.stamped
  ∧ NoDup (od_keys Demo.stamped_df)
  ∧ od_get (KStr "created_at") Demo.stamped_df = Some [Demo.Stamp 0; Demo.Stamp 1].
Proof.
  assert (build (Demo.gen []) Demo.stamped Demo.w0
          = (Ok (Built (E := Demo.env) (VInt 2) (VDict []) Demo.stamped_df),
             World (E := Demo.env) 4%nat 2 [])) as Hb.
  { vm_compute. reflexivity. }
  assert (VStr "created_at" ∈ requested_metadata (Demo.gen []) Demo.stamped)
    as Hreq.
  { apply list_elem_of_here. }
  assert (KStr "created_at" ∈ declared_names Demo.stamped) as Hdecl.
  { apply list_elem_of_here. }
  split; [exact Hb|]. split; [reflexivity|]. split; [exact Hreq|].
  split; [reflexivity|]. split; [exact Hdecl|].
  split; [|reflexivity].
  exact (proj1 (metadata_overwrites_field _ _ _ _ _ (VStr "created_at")
                  (KStr "created_at") Hb eq_refl Hreq eq_refl eq_refl Hdecl)).
Defined.

Lemma build_nonpositive_rows_witness :
  (-3 ≤ 0)
  ∧ od_get (KStr "rows") Demo.hollow_items = Some (VInt (-3))
  ∧ build (Demo.gen []) Demo.hollow Demo.w0
    = (Ok (Built (E := Demo.env) (VInt (-3)) (VDict []) Demo.hollow_df), Demo.w0)
  ∧ to_csv_records Demo.hollow_df
    = ([KStr "full_name"; KStr "created_at"], [])
  ∧ run_dataset (Demo.gen []) (KStr "hollow", Demo.hollow) Demo.w0
    = (Ok (),
       World (E := Demo.env) 0%nat 0
         [EPrint (MsgGenerated (VInt (-3)) (KStr "hollow"));
          EPrint (MsgHead Demo.hollow_df);
          EMakedirs (VStr "output/");
          EWrite (OutPath "output/" (KStr "hollow") (VStr "csv")) Comma
            Demo.hollow_df]).
Proof.
  split; [lia|]. split; [reflexivity|].
  destruct (build_nonpositive_rows (E := Demo.env) (Demo.gen [])
              Demo.hollow_items Demo.w0 (-3)
              (VDict [(KStr "enable", VBool true);
                      (KStr "fields", VList [VStr "created_at"])])
              (VDict [])
              [Demo.field "full_name" "name"])
    as (b & Hb & _ & _ & _ & Hcsv & _ & Hrun).
  - reflexivity.
  - lia.
  - reflexivity.
  - reflexivity.
  - reflexivity.
  - apply Forall_cons. split; [|apply Forall_nil_2].
    exists (VStr "full_name"), (VStr "name"),
      (call_fake (E := Demo.env) (fun g => (Ok (Demo.Fake "name" g), S g))),
      (KStr "full_name").
    repeat split; reflexivity.
  - intros _. exists [VStr "created_at"]. reflexivity.
  - assert (b = Built (E := Demo.env) (VInt (-3)) (VDict []) Demo.hollow_df)
      as ->.
    { vm_compute in Hb. injection Hb as <-. reflexivity. }
    split; [exact Hb|]. split; [exact Hcsv|].
    exact (Hrun (KStr "hollow") "output/" eq_refl eq_refl eq_refl eq_refl).
Defined.

Lemma unsupported_format_skips_write_witness :
  effective_output (Demo.gen []) Demo.as_json
  = Ok (VDict [(KStr "format", VStr "json")])
  ∧ VStr "json" ≠ VStr "csv"
  ∧ VStr "json" ≠ VStr "tsv"
  ∧ run_dataset (Demo.gen []) (KStr "export", Demo.as_json) Demo.w0
    = (Ok (),
       World (E := Demo.env) 1%nat 0
         [EPrint (MsgGenerated (VInt 1) (KStr "export"));
          EPrint (MsgHead Demo.as_json_df);
          EMakedirs (VStr "output/");
          EPrint (MsgUnsupported (VStr "json"))]).
Proof.
  assert (VStr "json" ≠ VStr "csv") as Hcsv by discriminate.
  assert (VStr "json" ≠ VStr "tsv") as Htsv by discriminate.
  split; [reflexivity|]. split; [exact Hcsv|]. split; [exact Htsv|].
  exact (proj1 (proj2 (unsupported_format_skips_write (E := Demo.env)
                         (Demo.gen []) (KStr "export") Demo.as_json
                         (VDict [(KStr "format", VStr "json")]) (VStr "json")
                         eq_refl eq_refl Hcsv Htsv)
                  Demo.w0 (Built (E := Demo.env) (VInt 1) (VDict [(KStr "format", VStr "json")])
                             Demo.as_json_df)
                  (World (E := Demo.env) 1%nat 0 []) "output/"
                  eq_refl eq_refl eq_refl)).
Defined.

Lemma generate_stops_at_first_failure_witness :
  for_each (run_dataset (Demo.gen [(KStr "people", Demo.people);
                                   (KStr "bad", Demo.broken);
                                   (KStr "again", Demo.people)]))
    [(KStr "people", Demo.people)] Demo.w0
  = (Ok (), Demo.w_people)
  ∧ generate (Demo.gen [(KStr "people", Demo.people);
                        (KStr "bad", Demo.broken);
                        (KStr "again", Demo.people)]) Demo.w0
    = (Raise AttributeError, Demo.w_people).
Proof.
  assert (for_each (run_dataset (Demo.gen [(KStr "people", Demo.people);
                                           (KStr "bad", Demo.broken);
                                           (KStr "again", Demo.people)]))
            [(KStr "people", Demo.people)] Demo.w0
          = (Ok (), Demo.w_people)) as Hpre.
  { vm_compute. reflexivity. }
  split; [exact Hpre|].
  refine (proj2 (generate_stops_at_first_failure (E := Demo.env)
                   (Demo.gen [(KStr "people", Demo.people);
                              (KStr "bad", Demo.broken);
                              (KStr "again", Demo.people)])
                   [(KStr "people", Demo.people)] (KStr "bad", Demo.broken)
                   [(KStr "again", Demo.people)] Demo.w0 Demo.w_people
                   eq_refl Hpre) AttributeError Demo.w_people _).
  vm_compute. reflexivity.
Defined.

(** The first of two datasets names a provider Faker does not have: the
    exception leaves [generate], and nothing is printed or written for the
    second dataset, which on its own is written. *)
Lemma generate_does_not_isolate_failures :
  generate (Demo.gen [(KStr "bad", Demo.broken); (KStr "people", Demo.people)])
    Demo.w0
  = (Raise AttributeError, Demo.w0)
  ∧ generate (Demo.gen [(KStr "people", Demo.people)]) Demo.w0
    = (Ok (), Demo.w_people)
  ∧ writes (w_trace Demo.w_people)
    = [EWrite (OutPath "output/" (KStr "people") (VStr "csv")) Comma
         Demo.people_df]
  ∧ writes (w_trace Demo.w0) = [].
Proof. repeat split; vm_compute; reflexivity. Qed.

Lemma missing_config_is_empty_witness :
  config_file Demo.env "config/config.yml" = None
  ∧ __init__ Demo.env "config/config.yml"
    = Ok (Generator (VDict []) (VDict []) (VDict []))
  ∧ main Demo.env Demo.w0 = (Ok (), Demo.w0).
Proof.
  split; [reflexivity|].
  destruct (missing_config_is_empty (E := Demo.env) "config/config.yml" eq_refl)
    as (_ & Hinit & Hrun).
  split; [exact Hinit|]. unfold main.
  rewrite (bind_run _ _ Demo.w0 (Generator (VDict []) (VDict []) (VDict []))
             Demo.w0).
  - apply Hrun.
  - unfold lift. rewrite Hinit. reflexivity.
Defined.

Lemma null_config_fails_witness :
  config_file Demo.env_null "config/config.yml" = Some (Ok VNone)
  ∧ __init__ Demo.env_null "config/config.yml" = Raise AttributeError
  ∧ main Demo.env_null (World (E := Demo.env_null) 0%nat 0 [])
    = (Raise AttributeError, World (E := Demo.env_null) 0%nat 0 []).
Proof.
  split; [reflexivity|].
  split; [|reflexivity].
  exact (proj2 (null_config_fails (E := Demo.env_null) "config/config.yml"
                  eq_refl)).
Defined.

(** ** More about the columns, the writer and the loop *)

Section Columns.

Context {E : Env}.
Implicit Types (w : world E) (data : table (cell E)) (self : generator).

Local Abbreviation draws := (draws (E := E)).
Local Abbreviation readings := (readings (E := E)).

Lemma world_same w : World (w_rng w) (w_clock w) (w_trace w) = w.
Proof. by destruct w. Qed.

Lemma repeat_call_ext {A} n (f f' : M E A) w :
  (∀ w0, f w0 = f' w0) → repeat_call n f w = repeat_call n f' w.
Proof.
  intros Hext. revert w. induction n as [|n IH]; intros w; [done|].
  simpl. unfold mbind, M_bind, bind. rewrite Hext.
  destruct (f' w) as [[x|e] w1]; [|done]. by rewrite IH.
Qed.

(** A comprehension over a Faker attribute is a run of [draws]. *)
Lemma repeat_call_draws f n w :
  repeat_call n (call_fake f) w
  = (let '(r, g) := draws f n (w_rng w) in (r, World g (w_clock w) (w_trace w))).
Proof.
  revert w. induction n as [|n IH]; intros w; simpl.
  - unfold ret. by rewrite world_same.
  - unfold mbind, M_bind, bind. unfold call_fake at 1.
    destruct (f (w_rng w)) as [[x|e] g1]; [|done].
    rewrite IH. simpl. by destruct (draws f n g1) as [[xs|e] g2].
Qed.

(** A comprehension over the clock is a run of [readings]. *)
Lemma repeat_call_readings n w :
  repeat_call n (now E) w
  = (let '(ts, c) := readings n (w_clock w) in
     (Ok ts, World (w_rng w) c (w_trace w))).
Proof.
  revert w. induction n as [|n IH]; intros w; simpl.
  - unfold ret. by rewrite world_same.
  - unfold mbind, M_bind, bind. unfold now at 1.
    destruct (datetime_now E (w_clock w)) as [t c1].
    rewrite IH. simpl. by destruct (readings n c1) as [ts c2].
Qed.

Lemma draws_length f n g col g' : draws f n g = (Ok col, g') → length col = n.
Proof.
  revert g col g'. induction n as [|n IH]; intros g col g' H; simpl in H.
  - by injection H as <- _.
  - destruct (f g) as [[x|e] g1]; [|done].
    destruct (draws f n g1) as [[xs|e] g2] eqn:Hxs; [|done].
    injection H as <- _. simpl. f_equal. by eapply IH.
Qed.

Lemma readings_length n c : length (readings n c).1 = n.
Proof.
  revert c. induction n as [|n IH]; intros c; simpl; [done|].
  destruct (datetime_now E c) as [t c1]. specialize (IH c1).
  destruct (readings n c1) as [ts c2]. simpl in *. by f_equal.
Qed.

(** X1.  The column of a declared field is the result of calling its Faker
    attribute once per element of [range(rows)], one call after the other
    on Faker's generator; a call that raises ends the step with its
    exception.  The step reads no clock and prints nothing. *)
Theorem field_column_draws num_rows data field w name k type f n :
  subscript field "name" = Ok name →
  to_key name = Ok k →
  subscript field "type" = Ok (VStr type) →
  fake_getattr E type = Some f →
  range_len num_rows = Ok n →
  field_step E num_rows data field w
  = match draws f n (w_rng w) with
    | (Ok column, g) =>
        (Ok (od_set k column data), World g (w_clock w) (w_trace w))
    | (Raise e, g) => (Raise e, World g (w_clock w) (w_trace w))
    end
  ∧ ∀ column g, draws f n (w_rng w) = (Ok column, g) → length column = n.
Proof.
  intros Hname Hk Htype Hf Hn. split; [|intros; by eapply draws_length].
  unfold field_step.
  erewrite bind_run by (unfold lift; rewrite Hname; reflexivity).
  erewrite bind_run by (unfold lift; rewrite Htype; reflexivity).
  erewrite bind_run by (unfold lift; simpl; rewrite Hf; reflexivity).
  unfold comprehension.
  unfold mbind at 1, M_bind, bind.
  unfold mbind at 1, M_bind, bind. unfold lift at 1. rewrite Hn.
  rewrite repeat_call_draws.
  destruct (draws f n (w_rng w)) as [[column|e] g]; [|done].
  unfold lift. rewrite Hk. done.
Qed.

(** X2.  A [created_at] or [modified_at] column holds one reading of the
    clock per element of [range(rows)], taken in row order; the step draws
    nothing from Faker and cannot fail. *)
Theorem timestamp_column_readings num_rows data s w n :
  s = "created_at" ∨ s = "modified_at" →
  range_len num_rows = Ok n →
  metadata_step E num_rows data (VStr s) w
  = (Ok (od_set (KStr s) (readings n (w_clock w)).1 data),
     World (w_rng w) (readings n (w_clock w)).2 (w_trace w))
  ∧ length (readings n (w_clock w)).1 = n.
Proof.
  intros Hs Hn. split; [|apply readings_length].
  unfold metadata_step.
  assert (str_eqb (VStr s) "created_at" || str_eqb (VStr s) "modified_at" = true)
    as ->.
  { by destruct Hs as [-> | ->]. }
  unfold comprehension, mbind, M_bind, bind, lift. rewrite Hn.
  rewrite repeat_call_readings.
  by destruct (readings n (w_clock w)) as [ts c].
Qed.

Lemma fake_name_call f w : fake_getattr E "name" = Some f → fake_name E w = call_fake f w.
Proof.
  intros Hf. unfold fake_name, mbind, M_bind, bind, lift. simpl. by rewrite Hf.
Qed.

(** X3.  A [created_by] or [modified_by] column holds one call of Faker's
    [name] per element of [range(rows)] and leaves the clock alone.  If
    Faker had no [name], the step would raise [AttributeError] exactly when
    [range(rows)] is not empty. *)
Theorem author_column_draws num_rows data s w n :
  s = "created_by" ∨ s = "modified_by" →
  range_len num_rows = Ok n →
  (∀ f, fake_getattr E "name" = Some f →
        metadata_step E num_rows data (VStr s) w
        = match draws f n (w_rng w) with
          | (Ok column, g) =>
              (Ok (od_set (KStr s) column data), World g (w_clock w) (w_trace w))
          | (Raise e, g) => (Raise e, World g (w_clock w) (w_trace w))
          end)
  ∧ (fake_getattr E "name" = None →
     metadata_step E num_rows data (VStr s) w
     = match n with
       | O => (Ok (od_set (KStr s) [] data), w)
       | S _ => (Raise AttributeError, w)
       end).
Proof.
  intros Hs Hn.
  assert (metadata_step E num_rows data (VStr s) w
          = (column ← comprehension num_rows (fake_name E);
             k ← lift (to_key (VStr s));
             ret (od_set k column data)) w) as ->.
  { unfold metadata_step. by destruct Hs as [-> | ->]. }
  unfold comprehension.
  unfold mbind at 1, M_bind, bind.
  unfold mbind at 1, M_bind, bind. unfold lift at 1. rewrite Hn. split.
  - intros f Hf.
    rewrite (repeat_call_ext n (fake_name E) (call_fake f))
      by (intros; by apply fake_name_call).
    rewrite repeat_call_draws.
    by destruct (draws f n (w_rng w)) as [[column|e] g].
  - intros Hnone. destruct n as [|n]; [done|].
    simpl. unfold mbind at 1, M_bind, bind.
    unfold fake_name, mbind, M_bind, bind, lift. simpl. by rewrite Hnone.
Qed.

End Columns.

Section Writer.

Context {E : Env}.
Implicit Types (w : world E) (data : table (cell E)) (self : generator).

Local Abbreviation directory_made_first := (directory_made_first (E := E)).
Local Abbreviation notices := (notices (E := E)).
Local Abbreviation final_event := (final_event (E := E)).

(** Every way [write] can end. *)
Lemma write_cases name b w r w' :
  write name b w = (r, w') →
  ∃ evs,
    w' = World (w_rng w) (w_clock w) (w_trace w ++ evs)
    ∧ ((∃ e, r = Raise e
             ∧ (evs = notices name b
                ∨ ∃ directory, evs = notices name b ++ [EMakedirs directory]))
       ∨ (r = Ok ()
          ∧ ∃ d fmt,
              py_get (b_output_config b) "directory" (VStr "output/")
              = Ok (VStr d)
              ∧ py_get (b_output_config b) "format" (VStr "csv") = Ok fmt
              ∧ evs = notices name b
                       ++ [EMakedirs (VStr d); final_event name b d fmt])).
Proof.
  unfold write, mbind, M_bind, bind, print, emit, lift, makedirs, to_csv, raise.
  simpl. rewrite <- ?app_assoc. simpl.
  destruct (py_get (b_output_config b) "directory" (VStr "output/"))
    as [directory|e] eqn:Hdir.
  2: { intros [= <- <-]. exists (notices name b). split; [by unfold notices; rewrite <- ?app_assoc|]. left. eauto. }
  destruct (makedirs_exn E _ directory) as [e|].
  { intros [= <- <-]. exists (notices name b). split; [by unfold notices; rewrite <- ?app_assoc|]. left. eauto. }
  simpl. rewrite <- ?app_assoc. simpl.
  destruct (py_get (b_output_config b) "format" (VStr "csv")) as [fmt|e] eqn:Hfmt.
  2: { intros [= <- <-]. exists (notices name b ++ [EMakedirs directory]).
       split; [by unfold notices; rewrite <- ?app_assoc|]. left. eauto. }
  destruct (path_join directory name fmt) as [file|e] eqn:Hfile.
  2: { intros [= <- <-]. exists (notices name b ++ [EMakedirs directory]).
       split; [by unfold notices; rewrite <- ?app_assoc|]. left. eauto. }
  assert (∃ d, directory = VStr d ∧ file = OutPath d name fmt) as (d & -> & ->).
  { unfold path_join in Hfile. destruct directory; simplify_eq. by eexists. }
  destruct (str_eqb fmt "csv") eqn:Hcsv; [|destruct (str_eqb fmt "tsv") eqn:Htsv].
  - destruct (to_csv_exn E _ _) as [e|].
    + intros [= <- <-]. exists (notices name b ++ [EMakedirs (VStr d)]).
      split; [by unfold notices; rewrite <- ?app_assoc|]. left. eauto.
    + simpl. rewrite <- ?app_assoc. simpl. intros [= <- <-].
      exists (notices name b ++ [EMakedirs (VStr d); final_event name b d fmt]).
      split; [by unfold notices, final_event; rewrite ?Hcsv, <- ?app_assoc|]. right.
      split; [done|]. by exists d, fmt.
  - destruct (to_csv_exn E _ _) as [e|].
    + intros [= <- <-]. exists (notices name b ++ [EMakedirs (VStr d)]).
      split; [by unfold notices; rewrite <- ?app_assoc|]. left. eauto.
    + simpl. rewrite <- ?app_assoc. simpl. intros [= <- <-].
      exists (notices name b ++ [EMakedirs (VStr d); final_event name b d fmt]).
      split; [by unfold notices, final_event; rewrite ?Hcsv, ?Htsv, <- ?app_assoc|].
      right.
      split; [done|]. by exists d, fmt.
  - simpl. rewrite <- ?app_assoc. simpl. intros [= <- <-].
    exists (notices name b ++ [EMakedirs (VStr d); final_event name b d fmt]).
    split; [by unfold notices, final_event; rewrite ?Hcsv, ?Htsv, <- ?app_assoc|].
    right.
    split; [done|]. by exists d, fmt.
Qed.

(** X4.  When [write] returns normally it has done four things, in this
    order and nothing else: printed the row-count notice, printed the
    preview, made the directory, and either written one file (comma for
    [csv], tab for [tsv]) under the effective directory, the dataset name
    and the effective format, or printed the unsupported-format notice.
    Faker's generator and the clock are as before. *)
Theorem write_success_events name b w w' :
  write name b w = (Ok (), w') →
  ∃ d fmt,
    py_get (b_output_config b) "directory" (VStr "output/") = Ok (VStr d)
    ∧ py_get (b_output_config b) "format" (VStr "csv") = Ok fmt
    ∧ w' = World (w_rng w) (w_clock w)
             (w_trace w
              ++ [EPrint (MsgGenerated (b_num_rows b) name);
                  EPrint (MsgHead (head_rows 10 (b_df b)));
                  EMakedirs (VStr d);
                  if str_eqb fmt "csv"
                  then EWrite (OutPath d name fmt) Comma (b_df b)
                  else if str_eqb fmt "tsv"
                       then EWrite (OutPath d name fmt) Tab (b_df b)
                       else EPrint (MsgUnsupported fmt)]).
Proof.
  intros H. apply write_cases in H as (evs & -> & [(e & He & _)|(_ & Hok)]);
    [done|].
  destruct Hok as (d & fmt & Hd & Hf & ->). by exists d, fmt.
Qed.

Lemma file_name_slash n f :
  starts_with_slash (n +:+ "." +:+ f) = starts_with_slash n.
Proof. by destruct n. Qed.

(** Where [os.path.join] puts a file whose dataset name and format are
    strings: under the directory, unless the name begins with [/]. *)
Lemma path_string_cases file n f :
  p_name file = KStr n →
  p_format file = VStr f →
  path_string file
  = Some (if starts_with_slash n then n +:+ "." +:+ f
          else with_slash (p_directory file) +:+ n +:+ "." +:+ f).
Proof.
  intros Hn Hf. unfold path_string, file_name, posix_join. rewrite Hn, Hf.
  simpl. by rewrite file_name_slash.
Qed.

Example path_string_absolute_name :
  path_string (OutPath "output/" (KStr "/tmp/x") (VStr "csv")) = Some "/tmp/x.csv"
  ∧ path_string (OutPath "out" (KStr "people") (VStr "tsv"))
    = Some "out/people.tsv".
Proof. split; reflexivity. Qed.

(** X5.  A dataset whose effective output configuration names neither a
    directory nor a format is written comma-separated, after [output/] has
    been made, by [to_csv] on [os.path.join("output/", "<name>.csv")]: for
    a dataset name that is a string this path is [output/<name>.csv],
    except that a name beginning with [/] gives [<name>.csv] itself,
    outside [output/]. *)
Theorem default_output_file self name dataset_config w b w1 o :
  build self dataset_config w = (Ok b, w1) →
  effective_output self dataset_config = Ok (VDict o) →
  od_get (KStr "directory") o = None →
  od_get (KStr "format") o = None →
  makedirs_exn E
    (w_trace w ++ [EPrint (MsgGenerated (b_num_rows b) name);
                   EPrint (MsgHead (head_rows 10 (b_df b)))])
    (VStr "output/") = None →
  to_csv_exn E
    (w_trace w ++ [EPrint (MsgGenerated (b_num_rows b) name);
                   EPrint (MsgHead (head_rows 10 (b_df b)));
                   EMakedirs (VStr "output/")])
    (OutPath "output/" name (VStr "csv")) = None →
  run_dataset self (name, dataset_config) w
  = (Ok (),
     World (w_rng w1) (w_clock w1)
       (w_trace w ++ [EPrint (MsgGenerated (b_num_rows b) name);
                      EPrint (MsgHead (head_rows 10 (b_df b)));
                      EMakedirs (VStr "output/");
                      EWrite (OutPath "output/" name (VStr "csv")) Comma
                        (b_df b)]))
  ∧ ∀ n, name = KStr n →
         path_string (OutPath "output/" name (VStr "csv"))
         = Some (if starts_with_slash n then n +:+ ".csv"
                 else "output/" +:+ n +:+ ".csv").
Proof.
  intros Hb Ho Hdir Hfmt Hmk Hcsv. split.
  - pose proof (quiet_build _ _ _ _ _ Hb) as Htr.
    assert (b_output_config b = VDict o) as Hbo.
    { apply build_inv in Hb as (_ & _ & _ & _ & _ & _ & _ & Ho' & _).
      rewrite Ho in Ho'. by injection Ho'. }
    unfold run_dataset. simpl. rewrite (bind_run _ _ _ _ _ Hb).
    rewrite <- Htr in *. apply write_csv_run.
    + rewrite Hbo. simpl. unfold od_get_default. by rewrite Hdir.
    + rewrite Hbo. simpl. unfold od_get_default. by rewrite Hfmt.
    + done.
    + done.
  - intros n ->. by rewrite (path_string_cases _ n "csv").
Qed.

Lemma written_names_app {cell} (tr1 tr2 : list (event cell)) :
  written_names (tr1 ++ tr2) = written_names tr1 ++ written_names tr2.
Proof. apply omap_app. Qed.

(** One turn of the loop that ends normally writes a file exactly when
    the dataset's format is supported. *)
Lemma run_dataset_written self item w w' :
  run_dataset self item w = (Ok (), w') →
  written_names (w_trace w')
  = written_names (w_trace w) ++ (if writes_file self item then [item.1] else []).
Proof.
  intros H. unfold run_dataset in H.
  apply bind_ok in H as (b & w1 & Hb & Hw).
  pose proof (quiet_build _ _ _ _ _ Hb) as Htr.
  apply build_inv in Hb as (_ & _ & _ & _ & _ & _ & _ & Ho & _).
  apply write_cases in Hw
    as (evs & -> & [(e & He & _)|(_ & d & fmt & _ & Hfmt & ->)]); [done|].
  simpl. rewrite written_names_app, Htr. f_equal.
  unfold writes_file, output_format. rewrite Ho. simpl. rewrite Hfmt.
  unfold supported, final_event.
  by destruct (str_eqb fmt "csv"); [|destruct (str_eqb fmt "tsv")].
Qed.

(** X6.  After a run of [generate] that ends normally, the files written
    are, in declaration order, those of the datasets whose effective
    format is [csv] or [tsv]: one file each, under the dataset's name. *)
Theorem generate_written_names self items w w' :
  (datasets ← py_get (config self) "datasets" (VDict []);
   py_items datasets) = Ok items →
  generate self w = (Ok (), w') →
  written_names (w_trace w')
  = written_names (w_trace w)
    ++ (filter (fun item => writes_file self item = true) items).*1.
Proof.
  intros Hds Hgen. unfold generate in Hgen.
  apply rbind_ok in Hds as (datasets & Hget & Hitems).
  erewrite bind_run in Hgen by (unfold lift; rewrite Hget; reflexivity).
  erewrite bind_run in Hgen by (unfold lift; rewrite Hitems; reflexivity).
  clear Hget Hitems. revert w Hgen.
  induction items as [|item items IH]; intros w H; simpl in H.
  - apply ret_ok in H as [_ ->]. by rewrite app_nil_r.
  - apply bind_ok in H as ([] & w1 & Hitem & H).
    apply IH in H. apply run_dataset_written in Hitem.
    rewrite H, Hitem, <- app_assoc. f_equal.
    destruct (writes_file self item) eqn:Hw.
    + by rewrite filter_cons_True.
    + rewrite filter_cons_False; [done|]. by rewrite Hw.
Qed.

Lemma directory_made_first_nil : directory_made_first [].
Proof. intros i file sep df Hi. by rewrite lookup_nil in Hi. Qed.

Lemma directory_made_first_app (evs1 evs2 : list (event (cell E))) :
  directory_made_first evs1 → directory_made_first evs2 →
  directory_made_first (evs1 ++ evs2).
Proof.
  intros H1 H2 i file sep df Hi.
  apply lookup_app_Some in Hi as [Hi|[Hle Hi]].
  - destruct (H1 _ _ _ _ Hi) as (j & Hj & Hmk). exists j. split; [done|].
    by apply lookup_app_l_Some.
  - destruct (H2 _ _ _ _ Hi) as (j & Hj & Hmk). exists (length evs1 + j)%nat.
    split; [lia|]. rewrite lookup_app_r by lia.
    by replace (length evs1 + j - length evs1)%nat with j by lia.
Qed.

Lemma run_dataset_directory_first self item w r w' :
  run_dataset self item w = (r, w') →
  ∃ evs, w_trace w' = w_trace w ++ evs ∧ directory_made_first evs.
Proof.
  unfold run_dataset. simpl.
  destruct (build self item.2 w) as [[b|e] w1] eqn:Hb.
  - rewrite (bind_run _ _ _ _ _ Hb). intros Hw.
    pose proof (quiet_build _ _ _ _ _ Hb) as Htr.
    apply write_cases in Hw as (evs & -> & Hcases). simpl. rewrite Htr.
    exists evs. split; [done|]. intros i file sep df Hi.
    destruct Hcases as [(e & _ & [->| [dir ->]])|(_ & d & fmt & _ & _ & ->)].
    + by destruct i as [|[|[|]]].
    + by destruct i as [|[|[|[|]]]].
    + destruct i as [|[|[|[|[|]]]]]; simplify_eq/=.
      exists 2%nat. split; [lia|]. unfold final_event in Hi.
      by destruct (str_eqb fmt "csv"); [|destruct (str_eqb fmt "tsv")];
        simplify_eq/=.
  - rewrite (bind_raise _ _ _ _ _ Hb). intros [= _ <-].
    exists []. rewrite app_nil_r. split; [by rewrite (quiet_build _ _ _ _ _ Hb)|].
    apply directory_made_first_nil.
Qed.

(** X7.  However a run of [generate] ends, it has only added events to
    the trace, and before every file it wrote it had called [os.makedirs]
    on the directory argument of that file's path.  For a dataset name and
    a format that are strings, the path is that directory followed by
    [<name>.<format>], except that a name beginning with [/] drops the
    directory: the path is then [<name>.<format>] alone. *)
Theorem generate_makes_directory_first self w r w' :
  generate self w = (r, w') →
  ∃ evs,
    w_trace w' = w_trace w ++ evs
    ∧ directory_made_first evs
    ∧ ∀ file sep df n f,
        EWrite file sep df ∈ evs →
        p_name file = KStr n →
        p_format file = VStr f →
        path_string file
        = Some (if starts_with_slash n then n +:+ "." +:+ f
                else with_slash (p_directory file) +:+ n +:+ "." +:+ f).
Proof.
  assert (∀ w r w',
    generate self w = (r, w') →
    ∃ evs, w_trace w' = w_trace w ++ evs ∧ directory_made_first evs) as Hrun.
  { clear w r w'.
    assert (∀ items w r w',
      for_each (run_dataset self) items w = (r, w') →
      ∃ evs, w_trace w' = w_trace w ++ evs ∧ directory_made_first evs) as Hloop.
    { clear. induction items as [|item items IH]; intros w r w' H; simpl in H.
      - injection H as _ <-. exists []. rewrite app_nil_r. split; [done|].
        apply directory_made_first_nil.
      - unfold mbind, M_bind, bind in H.
        destruct (run_dataset self item w) as [[[]|e] w1] eqn:Hitem.
        + apply run_dataset_directory_first in Hitem as (evs1 & Ht1 & H1).
          apply IH in H as (evs2 & Ht2 & H2). exists (evs1 ++ evs2).
          rewrite Ht2, Ht1, app_assoc. split; [done|].
          by apply directory_made_first_app.
        + injection H as _ <-. by eapply run_dataset_directory_first. }
    intros w r w'. unfold generate, mbind, M_bind, bind, lift.
    destruct (py_get (config self) "datasets" (VDict [])) as [datasets|e].
    2: { intros [= _ <-]. exists []. rewrite app_nil_r. split; [done|].
         apply directory_made_first_nil. }
    destruct (py_items datasets) as [items|e].
    2: { intros [= _ <-]. exists []. rewrite app_nil_r. split; [done|].
         apply directory_made_first_nil. }
    apply Hloop. }
  intros Hgen. destruct (Hrun _ _ _ Hgen) as (evs & Htr & Hfirst).
  exists evs. split; [done|]. split; [done|].
  intros file sep df n f _ Hn Hf. by apply path_string_cases.
Qed.

End Writer.

Section Builder.

Context {E : Env}.
Implicit Types (w : world E) (data : table (cell E)) (self : generator).

Local Abbreviation keeps := (keeps (E := E)).
Local Abbreviation assigns := (assigns (E := E)).

Lemma keeps_ret {A X} (component : world E → X) (a : A) : keeps component (ret a).
Proof. by intros w r w' [= _ ->]. Qed.

Lemma keeps_lift {A X} (component : world E → X) (r : result A) :
  keeps component (lift r).
Proof. by intros w r' w' [= _ ->]. Qed.

Lemma keeps_bind {A B X} (component : world E → X) (m : M E A) (k : A → M E B) :
  keeps component m →
  (∀ a w w1, m w = (Ok a, w1) → keeps component (k a)) →
  keeps component (m ≫= k).
Proof.
  intros Hm Hk w r w'. unfold mbind, M_bind, bind.
  destruct (m w) as [[a|e] w1] eqn:Hmw.
  - intros H. rewrite (Hk _ _ _ Hmw _ _ _ H). by eapply Hm.
  - intros [= _ <-]. by eapply Hm.
Qed.

Lemma keeps_repeat_call {A X} (component : world E → X) n (f : M E A) :
  keeps component f → keeps component (repeat_call n f).
Proof.
  intros Hf. induction n as [|n IH]; simpl; [apply keeps_ret|].
  apply keeps_bind; [done|]. intros x _ _ _.
  apply keeps_bind; [done|]. intros xs _ _ _. apply keeps_ret.
Qed.

Lemma keeps_for_fold {A B X} (component : world E → X)
    (body : B → A → M E B) acc l :
  (∀ acc x, keeps component (body acc x)) →
  keeps component (for_fold body acc l).
Proof.
  intros Hb. revert acc. induction l as [|x l IH]; intros acc; simpl.
  - apply keeps_ret.
  - apply keeps_bind; [apply Hb|]. intros acc' _ _ _. apply IH.
Qed.

(** A field step never reads the clock. *)
Lemma field_step_keeps_clock num_rows data field :
  keeps w_clock (field_step E num_rows data field).
Proof.
  unfold field_step.
  apply keeps_bind; [apply keeps_lift|]. intros field_name _ _ _.
  apply keeps_bind; [apply keeps_lift|]. intros faker_method_name _ _ _.
  apply keeps_bind; [apply keeps_lift|]. intros f w w1 [Hf _]%lift_ok.
  apply keeps_bind.
  { unfold comprehension. apply keeps_bind; [apply keeps_lift|].
    intros n _ _ _. apply keeps_repeat_call.
    unfold getattr_fake in Hf. destruct faker_method_name; try done.
    destruct (fake_getattr E s) as [f0|]; [|done]. injection Hf as <-.
    intros w0 r w0'. unfold call_fake. destruct (f0 (w_rng w0)).
    by intros [= _ <-]. }
  intros column _ _ _.
  apply keeps_bind; [apply keeps_lift|]. intros k _ _ _. apply keeps_ret.
Qed.

(** X8.  With metadata disabled, building a table never reads the clock,
    whether the build succeeds or raises. *)
Theorem build_without_metadata_keeps_clock self dataset_config w r w' :
  metadata_enabled self dataset_config = false →
  build self dataset_config w = (r, w') →
  w_clock w' = w_clock w.
Proof.
  intros Hoff. revert w r w'. change (keeps w_clock (build self dataset_config)).
  unfold build.
  apply keeps_bind; [apply keeps_lift|]. intros num_rows _ _ _.
  apply keeps_bind; [apply keeps_lift|]. intros mlocal w w1 [Hml _]%lift_ok.
  apply keeps_bind; [apply keeps_lift|]. intros m w2 w3 [Hm _]%lift_ok.
  apply keeps_bind; [apply keeps_lift|]. intros olocal _ _ _.
  apply keeps_bind; [apply keeps_lift|]. intros o _ _ _.
  apply keeps_bind; [apply keeps_lift|]. intros fields _ _ _.
  apply keeps_bind; [apply keeps_lift|]. intros fl _ _ _.
  apply keeps_bind.
  { apply keeps_for_fold. intros. apply field_step_keeps_clock. }
  intros data1 _ _ _.
  apply keeps_bind; [apply keeps_lift|]. intros enable w4 w5 [Hen _]%lift_ok.
  assert (truthy enable = false) as ->.
  { unfold metadata_enabled, effective_metadata in Hoff.
    rewrite Hml in Hoff. simpl in Hoff. by rewrite Hm, Hen in Hoff. }
  apply keeps_bind; [apply keeps_ret|]. intros data2 _ _ _.
  apply keeps_bind; [apply keeps_lift|]. intros df _ _ _. apply keeps_ret.
Qed.

(** X9.  Building a table prints nothing, makes no directory and writes no
    file, also when it raises; so a dataset whose build raises ends its
    turn with that exception and no trace of itself. *)
Theorem build_leaves_no_trace self name dataset_config w r w' :
  build self dataset_config w = (r, w') →
  w_trace w' = w_trace w
  ∧ ∀ e, r = Raise e →
         run_dataset self (name, dataset_config) w = (Raise e, w').
Proof.
  intros Hb. split; [by eapply quiet_build|]. intros e ->.
  unfold run_dataset. simpl. by rewrite (bind_raise _ _ _ _ _ Hb).
Qed.

Lemma for_fold_app_raise {A B} (body : B → A → M E B) acc l1 x l2 w acc1 w1 e w2 :
  for_fold body acc l1 w = (Ok acc1, w1) →
  body acc1 x w1 = (Raise e, w2) →
  for_fold body acc (l1 ++ x :: l2) w = (Raise e, w2).
Proof.
  revert acc w. induction l1 as [|y l1 IH]; intros acc w Hpre Hx; simpl in *.
  - apply ret_ok in Hpre as [-> ->]. by rewrite (bind_raise _ _ _ _ _ Hx).
  - apply bind_ok in Hpre as (acc' & w' & Hy & Hpre).
    rewrite (bind_run _ _ _ _ _ Hy). by apply IH.
Qed.

(** The stages of [build] before the field loop, run forward. *)
Lemma build_to_fields self d w m o fl :
  effective_metadata self (VDict d) = Ok m →
  effective_output self (VDict d) = Ok o →
  py_iter (od_get_default (KStr "fields") (VList []) d) = Ok fl →
  build self (VDict d) w
  = (data ← for_fold (field_step E (od_get_default (KStr "rows") (VInt 100) d))
              [] fl;
     enable ← lift (py_get m "enable" (VBool false));
     data ←
       (if truthy enable then
          metadata_fields ← lift (py_get m "fields" (VList []));
          metadata_fields ← lift (py_iter metadata_fields);
          for_fold
            (metadata_step E (od_get_default (KStr "rows") (VInt 100) d))
            data metadata_fields
        else ret data);
     df ← lift (DataFrame data);
     ret (Built (od_get_default (KStr "rows") (VInt 100) d) o df)) w.
Proof.
  intros Hm Ho Hfl. unfold build.
  unfold effective_metadata in Hm. unfold effective_output in Ho.
  simpl in Hm, Ho.
  erewrite bind_run by reflexivity. erewrite bind_run by reflexivity.
  erewrite bind_run by (unfold lift; rewrite Hm; reflexivity).
  erewrite bind_run by reflexivity.
  erewrite bind_run by (unfold lift; rewrite Ho; reflexivity).
  erewrite bind_run by reflexivity.
  erewrite bind_run by (unfold lift; rewrite Hfl; reflexivity).
  done.
Qed.

Lemma build_fields_raise self d w m o fl e w2 :
  effective_metadata self (VDict d) = Ok m →
  effective_output self (VDict d) = Ok o →
  py_iter (od_get_default (KStr "fields") (VList []) d) = Ok fl →
  for_fold (field_step E (od_get_default (KStr "rows") (VInt 100) d)) [] fl w
  = (Raise e, w2) →
  build self (VDict d) w = (Raise e, w2).
Proof.
  intros Hm Ho Hfl Hfold. rewrite (build_to_fields _ _ _ _ _ _ Hm Ho Hfl).
  by apply bind_raise.
Qed.

(** X10.  The first declared field that fails ends the build with its
    exception, in the world the fields before it left; the fields after it
    are not looked at. *)
Theorem build_stops_at_first_bad_field self d w m o pre field post data1 w1 e w2 :
  effective_metadata self (VDict d) = Ok m →
  effective_output self (VDict d) = Ok o →
  py_iter (od_get_default (KStr "fields") (VList []) d)
  = Ok (pre ++ field :: post) →
  for_fold (field_step E (od_get_default (KStr "rows") (VInt 100) d)) [] pre w
  = (Ok data1, w1) →
  field_step E (od_get_default (KStr "rows") (VInt 100) d) data1 field w1
  = (Raise e, w2) →
  build self (VDict d) w = (Raise e, w2).
Proof.
  intros Hm Ho Hfl Hpre Hfield.
  eapply build_fields_raise; try done. by eapply for_fold_app_raise.
Qed.

(** X11.  The type of a field is looked up before anything depends on
    [rows]: a field whose type Faker does not have raises [AttributeError]
    for every [rows] value, without drawing anything; in particular a
    dataset with [rows] zero or negative whose earlier fields are fine
    fails on it, in the unchanged world. *)
Theorem unregistered_type_fails_for_any_rows field name type :
  subscript field "name" = Ok name →
  subscript field "type" = Ok (VStr type) →
  fake_getattr E type = None →
  (∀ num_rows data w,
      field_step E num_rows data field w = (Raise AttributeError, w))
  ∧ (∀ self d w n m o pre post,
        od_get (KStr "rows") d = Some (VInt n) →
        n ≤ 0 →
        effective_metadata self (VDict d) = Ok m →
        effective_output self (VDict d) = Ok o →
        py_iter (od_get_default (KStr "fields") (VList []) d)
        = Ok (pre ++ field :: post) →
        Forall (field_ok (E := E)) pre →
        build self (VDict d) w = (Raise AttributeError, w)).
Proof.
  intros Hname Htype Hnone.
  assert (∀ num_rows data w,
    field_step E num_rows data field w = (Raise AttributeError, w)) as Hstep.
  { intros num_rows data w. unfold field_step.
    erewrite bind_run by (unfold lift; rewrite Hname; reflexivity).
    erewrite bind_run by (unfold lift; rewrite Htype; reflexivity).
    apply bind_raise. unfold lift. simpl. by rewrite Hnone. }
  split; [done|]. intros self d w n m o pre post Hrows Hn Hm Ho Hfl Hpre.
  destruct (fields_nonpositive n pre [] w Hn Hpre) as (data1 & Hfold & _).
  { by intros k col ?%elem_of_nil. }
  eapply build_fields_raise; try done.
  eapply for_fold_app_raise; [|apply Hstep].
  unfold od_get_default. rewrite Hrows. exact Hfold.
Qed.

(** X12.  [rows] is only looked at when a column is built: a dataset with
    no declared field and metadata disabled builds the empty table
    whatever its [rows] value is, an integer or not. *)
Theorem no_columns_for_any_rows self d w m o :
  effective_metadata self (VDict d) = Ok m →
  metadata_enabled self (VDict d) = false →
  effective_output self (VDict d) = Ok o →
  py_iter (od_get_default (KStr "fields") (VList []) d) = Ok [] →
  build self (VDict d) w
  = (Ok (Built (od_get_default (KStr "rows") (VInt 100) d) o []), w).
Proof.
  intros Hm Hoff Ho Hfl. rewrite (build_to_fields _ _ _ _ _ _ Hm Ho Hfl).
  simpl. erewrite bind_run by reflexivity.
  unfold metadata_enabled in Hoff. rewrite Hm in Hoff.
  destruct (py_get m "enable" (VBool false)) as [enable|e] eqn:Hen.
  - erewrite bind_run by reflexivity. rewrite Hoff.
    erewrite bind_run by reflexivity. by erewrite bind_run by reflexivity.
  - exfalso. unfold effective_metadata, _merge_configs in Hm. simpl in Hm.
    destruct (global_metadata self); try done.
    destruct (py_dict_update _ _); simplify_eq/=.
Qed.

(** The one-character strings a string iterates over are none of the four
    metadata names. *)
Lemma chars_not_recognized s : Forall (fun v => recognized v = false) (chars s).
Proof.
  induction s as [|c s IH]; simpl; constructor; [|done].
  unfold recognized. simpl.
  by repeat match goal with
     | |- context [Ascii.eqb ?a ?b] => destruct (Ascii.eqb a b)
     end.
Qed.

Lemma metadata_unrecognized_noop num_rows data ml w :
  Forall (fun v => recognized v = false) ml →
  for_fold (metadata_step E num_rows) data ml w = (Ok data, w).
Proof.
  induction 1 as [|mf ml Hmf _ IH]; [done|]. simpl.
  erewrite bind_run; [exact IH|].
  unfold metadata_step. unfold recognized in Hmf.
  apply orb_false_elim in Hmf as [Hmf Hmb].
  apply orb_false_elim in Hmf as [Hmf Hcb].
  by rewrite Hmf, Hcb, Hmb.
Qed.

(** X13.  When the effective metadata [fields] is a string instead of a
    list (for instance [fields: created_at]), the metadata loop goes over
    its characters, none of which is a metadata name: the loop changes
    nothing and cannot fail, and a built table has the field columns only. *)
Theorem metadata_fields_string_adds_nothing self dataset_config m s :
  effective_metadata self dataset_config = Ok m →
  py_get m "fields" (VList []) = Ok (VStr s) →
  (∀ num_rows data w,
      for_fold (metadata_step E num_rows) data (chars s) w = (Ok data, w))
  ∧ (∀ w b w',
        build self dataset_config w = (Ok b, w') →
        od_keys (b_df b) = first_seen [] (declared_names dataset_config)).
Proof.
  intros Hm Hfields. split.
  - intros. apply metadata_unrecognized_noop, chars_not_recognized.
  - intros w b w' Hb. apply build_columns in Hb as (-> & _).
    assert (metadata_names self dataset_config = []) as ->;
      [|by rewrite app_nil_r].
    unfold metadata_names. destruct (metadata_enabled _ _); [|done].
    unfold requested_metadata. rewrite Hm. simpl. rewrite Hfields. simpl.
    pose proof (chars_not_recognized s) as Hch.
    induction Hch as [|v l Hv _ IH]; [done|]. csimpl.
    unfold metadata_key at 1. by rewrite Hv.
Qed.

Lemma scalar_update_raises (g : odict value) v :
  scalar v = true → py_dict_update g v = Raise TypeError.
Proof. by destruct v. Qed.

(** X14.  A section that is present but null (or a boolean or a number) is
    not an absent section: [dict.update] cannot iterate it, and the build
    raises [TypeError] before anything is drawn.  This holds for the
    dataset's [metadata] and, when the metadata section merges, for its
    [output]. *)
Theorem scalar_section_raises self d w v :
  scalar v = true →
  (∀ g, global_metadata self = VDict g →
        od_get (KStr "metadata") d = Some v →
        build self (VDict d) w = (Raise TypeError, w))
  ∧ (∀ g m, global_output self = VDict g →
            effective_metadata self (VDict d) = Ok m →
            od_get (KStr "output") d = Some v →
            build self (VDict d) w = (Raise TypeError, w)).
Proof.
  intros Hv. split.
  - intros g Hg Hsec. unfold build.
    erewrite bind_run by reflexivity. erewrite bind_run by reflexivity.
    apply bind_raise. unfold lift. simpl. unfold od_get_default.
    rewrite Hsec, Hg. simpl. by rewrite scalar_update_raises.
  - intros g m Hg Hm Hsec. unfold build. unfold effective_metadata in Hm.
    simpl in Hm.
    erewrite bind_run by reflexivity. erewrite bind_run by reflexivity.
    erewrite bind_run by (unfold lift; rewrite Hm; reflexivity).
    erewrite bind_run by reflexivity.
    apply bind_raise. unfold lift. simpl. unfold od_get_default.
    rewrite Hsec, Hg. simpl. by rewrite scalar_update_raises.
Qed.

Lemma non_mapping_metadata_raises self :
  mapping (global_metadata self) = false →
  ∀ dataset_config (w : world E),
    build self dataset_config w = (Raise AttributeError, w).
Proof.
  intros Hg ds w. unfold build. destruct ds; try done.
  erewrite bind_run by reflexivity. erewrite bind_run by reflexivity.
  apply bind_raise. unfold lift, _merge_configs.
  by destruct (global_metadata self).
Qed.

(** X15.  The constructor does not check that the global sections are
    mappings; the check falls on each dataset.  For a configuration whose
    global [metadata] is null, a boolean, an integer, a string or a list,
    the constructor succeeds, every build then raises [AttributeError] and
    changes nothing, and [generate] raises it at its first dataset.  For
    such a global [output] the constructor succeeds and no build does. *)
Theorem non_mapping_global_section config_path c gc v :
  _load_config E config_path = Ok (VDict c) →
  od_get (KStr "global") c = Some (VDict gc) →
  mapping v = false →
  (od_get (KStr "metadata") gc = Some v →
   ∃ self,
     __init__ E config_path = Ok self
     ∧ config self = VDict c
     ∧ global_metadata self = v
     ∧ (∀ dataset_config (w : world E),
           build self dataset_config w = (Raise AttributeError, w))
     ∧ (∀ item items (w : world E),
           od_get (KStr "datasets") c = Some (VDict (item :: items)) →
           generate self w = (Raise AttributeError, w)))
  ∧ (od_get (KStr "output") gc = Some v →
     ∃ self,
       __init__ E config_path = Ok self
       ∧ config self = VDict c
       ∧ global_output self = v
       ∧ ∀ dataset_config (w : world E) b w',
           build self dataset_config w ≠ (Ok b, w')).
Proof.
  intros Hload Hglobal Hv. split.
  - intros Hmeta.
    exists (Generator (VDict c) v (od_get_default (KStr "output") (VDict []) gc)).
    split.
    { unfold __init__. rewrite Hload. simpl. unfold od_get_default.
      rewrite Hglobal. simpl. unfold od_get_default. by rewrite Hmeta. }
    split; [done|]. split; [done|].
    assert (∀ dataset_config (w : world E),
      build (Generator (VDict c) v
               (od_get_default (KStr "output") (VDict []) gc))
        dataset_config w = (Raise AttributeError, w)) as Hbuild.
    { by apply non_mapping_metadata_raises. }
    split; [done|]. intros item items w Hds. unfold generate. simpl.
    erewrite bind_run
      by (unfold lift, od_get_default; rewrite Hds; reflexivity).
    erewrite bind_run by reflexivity.
    simpl. apply bind_raise. unfold run_dataset. apply bind_raise, Hbuild.
  - intros Hout.
    exists (Generator (VDict c)
              (od_get_default (KStr "metadata") (VDict []) gc) v).
    split.
    { unfold __init__. rewrite Hload. simpl. unfold od_get_default.
      rewrite Hglobal. simpl. unfold od_get_default. by rewrite Hout. }
    split; [done|]. split; [done|].
    intros ds w b w' Hb.
    apply build_inv in Hb as (_ & _ & _ & _ & _ & _ & _ & Ho & _).
    unfold effective_output in Ho. apply rbind_ok in Ho as (ol & _ & Ho).
    unfold _merge_configs in Ho. simpl in Ho. by destruct v.
Qed.

Lemma for_fold_assigns_NoDup key_of Q step l data w data' w' :
  assigns key_of Q step →
  for_fold step data l w = (Ok data', w') →
  NoDup (od_keys data) → NoDup (od_keys data').
Proof.
  intros Hstep Hfold Hnd.
  destruct (for_fold_assigns _ _ _ _ _ _ _ _ Hstep Hfold) as (-> & _).
  apply NoDup_app. split; [done|]. split; [|apply first_seen_NoDup].
  intros k Hk [_ Hn]%elem_of_first_seen. done.
Qed.

Lemma for_fold_assigns_columns key_of Q step (P : list (cell E) → Prop)
    l data w data' w' :
  assigns key_of Q step →
  (∀ k col, Q k col → P col) →
  for_fold step data l w = (Ok data', w') →
  (∀ k col, od_get k data = Some col → P col) →
  ∀ k col, od_get k data' = Some col → P col.
Proof.
  intros Hstep HQ Hfold Hdata k col Hget.
  destruct (for_fold_assigns _ _ _ _ _ _ _ _ Hstep Hfold) as (_ & Hin & Hout).
  destruct (decide (k ∈ omap key_of l)) as [Hk|Hk].
  - destruct (Hin _ Hk) as (col' & Hget' & Hcol').
    rewrite Hget in Hget'. injection Hget' as <-. by eapply HQ.
  - rewrite (Hout _ Hk) in Hget. by eapply Hdata.
Qed.

(** X16.  The table the two loops of [build] leave always has columns of
    one length, so [pd.DataFrame] accepts it: a build never fails at the
    frame constructor. *)
Theorem frame_constructor_never_fails num_rows fl ml w data1 w1 data2 w2 :
  for_fold (field_step E num_rows) [] fl w = (Ok data1, w1) →
  (data2 = data1
   ∨ for_fold (metadata_step E num_rows) data1 ml w1 = (Ok data2, w2)) →
  DataFrame data2 = Ok data2.
Proof.
  intros Hf Hm.
  set (P := fun col : list (cell E) => range_len num_rows = Ok (length col)).
  assert (NoDup (od_keys data1) ∧ ∀ k col, od_get k data1 = Some col → P col)
    as [Hnd1 Hlen1].
  { split.
    - eapply for_fold_assigns_NoDup;
        [apply (field_step_assigns num_rows) | exact Hf | constructor].
    - eapply for_fold_assigns_columns;
        [apply (field_step_assigns num_rows) | | exact Hf | done].
      by intros k col. }
  assert (NoDup (od_keys data2) ∧ ∀ k col, od_get k data2 = Some col → P col)
    as [Hnd2 Hlen2].
  { destruct Hm as [->|Hm]; [done|]. split.
    - eapply for_fold_assigns_NoDup;
        [apply (metadata_step_assigns num_rows) | exact Hm | done].
    - eapply for_fold_assigns_columns;
        [apply (metadata_step_assigns num_rows) | | exact Hm | done].
      intros k col. apply metadata_column_length. }
  unfold DataFrame.
  assert (forallb (fun kc : key * list (cell E) =>
                     (length kc.2 =? n_rows data2)%nat) data2 = true) as ->;
    [|done].
  apply forallb_forall. intros [k col] Hin. simpl.
  apply list_elem_of_In in Hin. apply Nat.eqb_eq.
  destruct data2 as [|[k0 col0] rest]; [by apply elem_of_nil in Hin|].
  simpl. apply od_get_of_elem in Hin; [|done].
  assert (od_get k0 ((k0, col0) :: rest) = Some col0) as H0.
  { simpl. by rewrite decide_True. }
  apply Hlen2 in Hin, H0. unfold P in *. rewrite Hin in H0. by injection H0.
Qed.

End Builder.

Section Settings.

Context {E : Env}.

Lemma od_update_wf {V} (g l : odict V) : od_wf g → od_wf l → od_wf (od_update g l).
Proof.
  intros Hg Hl. unfold od_wf. rewrite od_keys_update by done.
  apply NoDup_app. split; [done|]. split.
  - intros k Hk [Hn _]%list_elem_of_filter. done.
  - by apply NoDup_filter.
Qed.

(** X17.  Merging two dictionaries gives a dictionary again: each key of
    the merged configuration stands once, and its keys are those of the
    global section together with those of the dataset's section. *)
Theorem merged_config_keys (g l merged : odict value) :
  od_wf g → od_wf l →
  _merge_configs (VDict g) (VDict l) = Ok (VDict merged) →
  od_wf merged
  ∧ ∀ k, k ∈ od_keys merged ↔ k ∈ od_keys g ∨ k ∈ od_keys l.
Proof.
  intros Hg Hl [= <-]. split; [by apply od_update_wf|].
  intros k. rewrite od_keys_update, elem_of_app, list_elem_of_filter by done.
  destruct (decide (k ∈ od_keys g)); tauto.
Qed.

Lemma merged_setting (g l : odict value) k dflt :
  od_wf l →
  od_get_default k dflt (od_update g l)
  = match od_get k l with
    | Some v => v
    | None => od_get_default k dflt g
    end.
Proof.
  intros Hl. unfold od_get_default. rewrite od_get_update by done.
  by destruct (od_get k l).
Qed.

(** X18.  A setting is resolved in three steps: the dataset's own section
    if it has the key, else the global section if it has the key, else the
    default of the place that reads it.  This holds for the [output]
    settings ([directory], [format]) and for the [metadata] settings
    ([enable], [fields]); a dataset without the section gets the global
    section as it is. *)
Theorem setting_precedence (self : generator) (d : odict value) :
  (∀ g, global_output self = VDict g →
     (∀ l, od_get (KStr "output") d = Some (VDict l) → od_wf l →
           ∃ o, effective_output self (VDict d) = Ok (VDict o)
                ∧ ∀ k dflt,
                    py_get (VDict o) k dflt
                    = Ok (match od_get (KStr k) l with
                          | Some v => v
                          | None => od_get_default (KStr k) dflt g
                          end))
     ∧ (od_get (KStr "output") d = None →
        effective_output self (VDict d) = Ok (VDict g)))
  ∧ (∀ g, global_metadata self = VDict g →
       (∀ l, od_get (KStr "metadata") d = Some (VDict l) → od_wf l →
             ∃ m, effective_metadata self (VDict d) = Ok (VDict m)
                  ∧ ∀ k dflt,
                      py_get (VDict m) k dflt
                      = Ok (match od_get (KStr k) l with
                            | Some v => v
                            | None => od_get_default (KStr k) dflt g
                            end))
       ∧ (od_get (KStr "metadata") d = None →
          effective_metadata self (VDict d) = Ok (VDict g))).
Proof.
  split; intros g Hg; split.
  - intros l Hsec Hl. exists (od_update g l). split.
    + unfold effective_output. simpl. unfold od_get_default.
      by rewrite Hsec, Hg.
    + intros k dflt. simpl. by rewrite merged_setting.
  - intros Hnone. unfold effective_output. simpl. unfold od_get_default.
    by rewrite Hnone, Hg.
  - intros l Hsec Hl. exists (od_update g l). split.
    + unfold effective_metadata. simpl. unfold od_get_default.
      by rewrite Hsec, Hg.
    + intros k dflt. simpl. by rewrite merged_setting.
  - intros Hnone. unfold effective_metadata. simpl. unfold od_get_default.
    by rewrite Hnone, Hg.
Qed.

(** X19.  The first version's constructor is the laxer one: whenever the
    constructor of [src/main.py] succeeds on a path, the first version's
    succeeds on it with the same configuration; and the first version's
    succeeds on every document that loads, the null document included,
    after which its [generate] prints its three lines. *)
Theorem skeleton_constructor_is_laxer (config_path : string) :
  (∀ self, __init__ E config_path = Ok self →
           Skeleton.__init__ E config_path
           = Ok (Skeleton.Generator (config self)))
  ∧ (∀ v, _load_config E config_path = Ok v →
          Skeleton.__init__ E config_path = Ok (Skeleton.Generator v))
  ∧ (∀ v out, _load_config E "config/config.yml" = Ok v →
              Skeleton.main E out
              = Ok (out ++ [Skeleton.PFaker; Skeleton.PYaml; Skeleton.POs])).
Proof.
  assert (∀ path v, _load_config E path = Ok v →
                    Skeleton.__init__ E path = Ok (Skeleton.Generator v)) as Hinit.
  { intros path v Hv. unfold Skeleton.__init__.
    change (Skeleton._load_config E path) with (_load_config E path).
    by rewrite Hv. }
  split; [|split].
  - intros self Hself. unfold __init__ in Hself.
    apply rbind_ok in Hself as (c & Hload & Hself).
    apply rbind_ok in Hself as (gc & _ & Hself).
    apply rbind_ok in Hself as (gm & _ & Hself).
    apply rbind_ok in Hself as (go & _ & [= <-]). simpl. by apply Hinit.
  - apply Hinit.
  - intros v out Hv. unfold Skeleton.main. by rewrite (Hinit _ _ Hv).
Qed.

End Settings.

(** ** These properties on concrete configurations *)

Lemma field_column_draws_witness :
  fake_getattr Demo.env "name" = Some (fun g => (Ok (Demo.Fake "name" g), S g))
  ∧ range_len (VInt 2) = Ok 2%nat
  ∧ field_step Demo.env (VInt 2) [] (Demo.field "full_name" "name") Demo.w0
    = (Ok [(KStr "full_name", [Demo.Fake "name" 0; Demo.Fake "name" 1])],
       World (E := Demo.env) 2%nat 0 []).
Proof.
  split; [reflexivity|]. split; [reflexivity|].
  exact (proj1 (field_column_draws (E := Demo.env) (VInt 2) []
                  (Demo.field "full_name" "name") Demo.w0
                  (VStr "full_name") (KStr "full_name") "name"
                  (fun g => (Ok (Demo.Fake "name" g), S g)) 2%nat
                  eq_refl eq_refl eq_refl eq_refl eq_refl)).
Defined.

Lemma timestamp_column_readings_witness :
  range_len (VInt 2) = Ok 2%nat
  ∧ metadata_step Demo.env (VInt 2) [] (VStr "created_at") Demo.w0
    = (Ok [(KStr "created_at", [Demo.Stamp 0; Demo.Stamp 1])],
       World (E := Demo.env) 0%nat 2 []).
Proof.
  split; [reflexivity|].
  exact (proj1 (timestamp_column_readings (E := Demo.env) (VInt 2) []
                  "created_at" Demo.w0 2%nat (or_introl eq_refl) eq_refl)).
Defined.

Lemma author_column_draws_witness :
  range_len (VInt 2) = Ok 2%nat
  ∧ metadata_step Demo.env (VInt 2) [] (VStr "modified_by") Demo.w0
    = (Ok [(KStr "modified_by", [Demo.Fake "name" 0; Demo.Fake "name" 1])],
       World (E := Demo.env) 2%nat 0 []).
Proof.
  split; [reflexivity|].
  exact (proj1 (author_column_draws (E := Demo.env) (VInt 2) []
                  "modified_by" Demo.w0 2%nat (or_intror eq_refl) eq_refl)
           (fun g => (Ok (Demo.Fake "name" g), S g)) eq_refl).
Defined.

Lemma write_success_events_witness :
  write (KStr "people") (Built (E := Demo.env) (VInt 2) (VDict []) Demo.people_df)
    (World (E := Demo.env) 4%nat 0 [])
  = (Ok (), Demo.w_people)
  ∧ ∃ d fmt,
      py_get (VDict []) "directory" (VStr "output/") = Ok (VStr d)
      ∧ py_get (VDict []) "format" (VStr "csv") = Ok fmt
      ∧ Demo.w_people
        = World (E := Demo.env) 4%nat 0
            [EPrint (MsgGenerated (VInt 2) (KStr "people"));
             EPrint (MsgHead (head_rows 10 Demo.people_df));
             EMakedirs (VStr d);
             if str_eqb fmt "csv"
             then EWrite (OutPath d (KStr "people") fmt) Comma Demo.people_df
             else if str_eqb fmt "tsv"
                  then EWrite (OutPath d (KStr "people") fmt) Tab Demo.people_df
                  else EPrint (MsgUnsupported fmt)].
Proof.
  assert (write (KStr "people")
            (Built (E := Demo.env) (VInt 2) (VDict []) Demo.people_df)
            (World (E := Demo.env) 4%nat 0 [])
          = (Ok (), Demo.w_people)) as Hw.
  { vm_compute. reflexivity. }
  split; [exact Hw|].
  exact (write_success_events (E := Demo.env) _ _ _ _ Hw).
Defined.

Lemma default_output_file_witness :
  build (Demo.gen []) Demo.people Demo.w0
  = (Ok (Built (E := Demo.env) (VInt 2) (VDict []) Demo.people_df),
     World (E := Demo.env) 4%nat 0 [])
  ∧ effective_output (Demo.gen []) Demo.people = Ok (VDict [])
  ∧ run_dataset (Demo.gen []) (KStr "people", Demo.people) Demo.w0
    = (Ok (), Demo.w_people)
  ∧ path_string (OutPath "output/" (KStr "people") (VStr "csv"))
    = Some "output/people.csv".
Proof.
  assert (build (Demo.gen []) Demo.people Demo.w0
          = (Ok (Built (E := Demo.env) (VInt 2) (VDict []) Demo.people_df),
             World (E := Demo.env) 4%nat 0 [])) as Hb.
  { vm_compute. reflexivity. }
  split; [exact Hb|]. split; [reflexivity|].
  destruct (default_output_file (E := Demo.env) (Demo.gen []) (KStr "people")
              Demo.people Demo.w0 _ _ [] Hb eq_refl eq_refl eq_refl eq_refl
              eq_refl) as [Hrun Hpath].
  split; [exact Hrun | exact (Hpath "people" eq_refl)].
Defined.

Lemma generate_written_names_witness :
  let self := Demo.gen [(KStr "people", Demo.people);
                        (KStr "export", Demo.as_json);
                        (KStr "again", Demo.people)] in
  (generate self Demo.w0).1 = Ok ()
  ∧ written_names (w_trace (generate self Demo.w0).2)
    = [KStr "people"; KStr "again"].
Proof.
  intros self.
  assert (generate self Demo.w0 = (Ok (), (generate self Demo.w0).2)) as Hgen.
  { vm_compute. reflexivity. }
  split; [vm_compute; reflexivity|].
  exact (generate_written_names (E := Demo.env) self
           [(KStr "people", Demo.people); (KStr "export", Demo.as_json);
            (KStr "again", Demo.people)]
           Demo.w0 _ eq_refl Hgen).
Defined.

Lemma generate_makes_directory_first_witness :
  let self := Demo.gen [(KStr "people", Demo.people); (KStr "bad", Demo.broken)] in
  generate self Demo.w0 = (Raise AttributeError, Demo.w_people)
  ∧ ∃ evs,
      w_trace Demo.w_people = w_trace Demo.w0 ++ evs
      ∧ directory_made_first evs
      ∧ ∀ file sep df n f,
          EWrite file sep df ∈ evs →
          p_name file = KStr n →
          p_format file = VStr f →
          path_string file
          = Some (if starts_with_slash n then n +:+ "." +:+ f
                  else with_slash (p_directory file) +:+ n +:+ "." +:+ f).
Proof.
  intros self.
  assert (generate self Demo.w0 = (Raise AttributeError, Demo.w_people)) as Hgen.
  { vm_compute. reflexivity. }
  split; [exact Hgen|].
  exact (generate_makes_directory_first (E := Demo.env) self _ _ _ Hgen).
Defined.

Lemma build_without_metadata_keeps_clock_witness :
  metadata_enabled (Demo.gen []) Demo.people = false
  ∧ build (Demo.gen []) Demo.people Demo.w0
    = (Ok (Built (E := Demo.env) (VInt 2) (VDict []) Demo.people_df),
       World (E := Demo.env) 4%nat 0 [])
  ∧ w_clock (World (E := Demo.env) 4%nat 0 []) = w_clock Demo.w0.
Proof.
  assert (build (Demo.gen []) Demo.people Demo.w0
          = (Ok (Built (E := Demo.env) (VInt 2) (VDict []) Demo.people_df),
             World (E := Demo.env) 4%nat 0 [])) as Hb.
  { vm_compute. reflexivity. }
  split; [reflexivity|]. split; [exact Hb|].
  exact (build_without_metadata_keeps_clock (E := Demo.env) (Demo.gen [])
           Demo.people _ _ _ eq_refl Hb).
Defined.

Lemma build_leaves_no_trace_witness :
  build (E := Demo.env) (Demo.gen []) Demo.broken Demo.w_people
  = (Raise AttributeError, Demo.w_people)
  ∧ run_dataset (Demo.gen []) (KStr "bad", Demo.broken) Demo.w_people
    = (Raise AttributeError, Demo.w_people).
Proof.
  assert (build (E := Demo.env) (Demo.gen []) Demo.broken Demo.w_people
          = (Raise AttributeError, Demo.w_people)) as Hb.
  { vm_compute. reflexivity. }
  split; [exact Hb|].
  exact (proj2 (build_leaves_no_trace (E := Demo.env) (Demo.gen [])
                  (KStr "bad") Demo.broken _ _ _ Hb) AttributeError eq_refl).
Defined.

Lemma build_stops_at_first_bad_field_witness :
  let d := [(KStr "rows", VInt 2);
            (KStr "fields",
             VList [Demo.field "full_name" "name";
                    Demo.field "x" "no_such_provider";
                    Demo.field "mail" "email"])] in
  field_step Demo.env (VInt 2)
    [(KStr "full_name", [Demo.Fake "name" 0; Demo.Fake "name" 1])]
    (Demo.field "x" "no_such_provider") (World (E := Demo.env) 2%nat 0 [])
  = (Raise AttributeError, World (E := Demo.env) 2%nat 0 [])
  ∧ build (Demo.gen []) (VDict d) Demo.w0
    = (Raise AttributeError, World (E := Demo.env) 2%nat 0 []).
Proof.
  intros d. split; [reflexivity|].
  exact (build_stops_at_first_bad_field (E := Demo.env) (Demo.gen []) d Demo.w0
           (VDict []) (VDict [])
           [Demo.field "full_name" "name"] (Demo.field "x" "no_such_provider")
           [Demo.field "mail" "email"]
           [(KStr "full_name", [Demo.Fake "name" 0; Demo.Fake "name" 1])]
           (World (E := Demo.env) 2%nat 0 []) AttributeError
           (World (E := Demo.env) 2%nat 0 [])
           eq_refl eq_refl eq_refl eq_refl eq_refl).
Defined.

Lemma unregistered_type_fails_for_any_rows_witness :
  fake_getattr Demo.env "no_such_provider" = None
  ∧ field_step Demo.env (VInt 0) [] (Demo.field "x" "no_such_provider") Demo.w0
    = (Raise AttributeError, Demo.w0)
  ∧ field_step Demo.env (VStr "many") [] (Demo.field "x" "no_such_provider")
      Demo.w0
    = (Raise AttributeError, Demo.w0).
Proof.
  split; [reflexivity|].
  pose proof (proj1 (unregistered_type_fails_for_any_rows (E := Demo.env)
                       (Demo.field "x" "no_such_provider") (VStr "x")
                       "no_such_provider" eq_refl eq_refl eq_refl)) as H.
  split; apply H.
Defined.

Lemma no_columns_for_any_rows_witness :
  metadata_enabled (Demo.gen []) (VDict [(KStr "rows", VStr "many")]) = false
  ∧ build (Demo.gen []) (VDict [(KStr "rows", VStr "many")]) Demo.w0
    = (Ok (Built (E := Demo.env) (VStr "many") (VDict []) []), Demo.w0).
Proof.
  split; [reflexivity|].
  exact (no_columns_for_any_rows (E := Demo.env) (Demo.gen [])
           [(KStr "rows", VStr "many")] Demo.w0 (VDict []) (VDict [])
           eq_refl eq_refl eq_refl eq_refl).
Defined.

Lemma metadata_fields_string_adds_nothing_witness :
  let dataset_config :=
    VDict [(KStr "rows", VInt 1);
           (KStr "fields", VList [Demo.field "mail" "email"]);
           (KStr "metadata",
            VDict [(KStr "enable", VBool true);
                   (KStr "fields", VStr "created_at")])] in
  build (Demo.gen []) dataset_config Demo.w0
  = (Ok (Built (E := Demo.env) (VInt 1) (VDict []) Demo.as_json_df),
     World (E := Demo.env) 1%nat 0 [])
  ∧ od_keys Demo.as_json_df = first_seen [] (declared_names dataset_config).
Proof.
  intros dataset_config.
  assert (build (Demo.gen []) dataset_config Demo.w0
          = (Ok (Built (E := Demo.env) (VInt 1) (VDict []) Demo.as_json_df),
             World (E := Demo.env) 1%nat 0 [])) as Hb.
  { vm_compute. reflexivity. }
  split; [exact Hb|].
  exact (proj2 (metadata_fields_string_adds_nothing (E := Demo.env)
                  (Demo.gen []) dataset_config
                  (VDict [(KStr "enable", VBool true);
                          (KStr "fields", VStr "created_at")])
                  "created_at" eq_refl eq_refl) _ _ _ Hb).
Defined.

Lemma scalar_section_raises_witness :
  scalar VNone = true
  ∧ build (Demo.gen []) (VDict [(KStr "metadata", VNone)]) Demo.w0
    = (Raise TypeError, Demo.w0)
  ∧ build (Demo.gen []) (VDict [(KStr "output", VNone)]) Demo.w0
    = (Raise TypeError, Demo.w0).
Proof.
  split; [reflexivity|]. split.
  - exact (proj1 (scalar_section_raises (E := Demo.env) (Demo.gen [])
                    [(KStr "metadata", VNone)] Demo.w0 VNone eq_refl)
             [] eq_refl eq_refl).
  - exact (proj2 (scalar_section_raises (E := Demo.env) (Demo.gen [])
                    [(KStr "output", VNone)] Demo.w0 VNone eq_refl)
             [] (VDict []) eq_refl eq_refl eq_refl).
Defined.

Lemma non_mapping_global_section_witness :
  _load_config Demo.env_bad_global "config/config.yml" = Ok Demo.bad_global
  ∧ mapping (VInt 5) = false
  ∧ ∃ self,
      __init__ Demo.env_bad_global "config/config.yml" = Ok self
      ∧ global_metadata self = VInt 5
      ∧ generate (E := Demo.env_bad_global) self
          (World (E := Demo.env_bad_global) 0%nat 0 [])
        = (Raise AttributeError, World (E := Demo.env_bad_global) 0%nat 0 []).
Proof.
  split; [reflexivity|]. split; [reflexivity|].
  destruct (proj1 (non_mapping_global_section (E := Demo.env_bad_global)
                     "config/config.yml" _ _ (VInt 5) eq_refl eq_refl eq_refl)
              eq_refl) as (self & Hinit & _ & Hgm & _ & Hgen).
  exists self. split; [exact Hinit|]. split; [exact Hgm|].
  exact (Hgen _ [] _ eq_refl).
Defined.

Lemma frame_constructor_never_fails_witness :
  for_fold (field_step Demo.env (VInt 2)) []
    [Demo.field "created_at" "name"; Demo.field "city" "address"] Demo.w0
  = (Ok [(KStr "created_at", [Demo.Fake "name" 0; Demo.Fake "name" 1]);
         (KStr "city", [Demo.Fake "address" 2; Demo.Fake "address" 3])],
     World (E := Demo.env) 4%nat 0 [])
  ∧ DataFrame (E := Demo.env) Demo.stamped_df = Ok Demo.stamped_df.
Proof.
  assert (for_fold (field_step Demo.env (VInt 2)) []
            [Demo.field "created_at" "name"; Demo.field "city" "address"] Demo.w0
          = (Ok [(KStr "created_at", [Demo.Fake "name" 0; Demo.Fake "name" 1]);
                 (KStr "city", [Demo.Fake "address" 2; Demo.Fake "address" 3])],
             World (E := Demo.env) 4%nat 0 [])) as Hf.
  { vm_compute. reflexivity. }
  split; [exact Hf|].
  refine (frame_constructor_never_fails (E := Demo.env) (VInt 2) _
            [VStr "created_at"] _ _ _ Demo.stamped_df
            (World (E := Demo.env) 4%nat 2 []) Hf (or_intror _)).
  vm_compute. reflexivity.
Defined.

Lemma merged_config_keys_witness :
  od_wf [(KStr "directory", VStr "out/"); (KStr "format", VStr "csv")]
  ∧ od_wf [(KStr "format", VStr "tsv")]
  ∧ od_wf [(KStr "directory", VStr "out/"); (KStr "format", VStr "tsv")].
Proof.
  assert (od_wf [(KStr "directory", VStr "out/"); (KStr "format", VStr "csv")])
    as Hg.
  { unfold od_wf. simpl. refine (bool_decide_unpack _ _). vm_compute. exact I. }
  assert (od_wf [(KStr "format", VStr "tsv")]) as Hl.
  { unfold od_wf. simpl. refine (bool_decide_unpack _ _). vm_compute. exact I. }
  split; [exact Hg|]. split; [exact Hl|].
  exact (proj1 (merged_config_keys _ _ _ Hg Hl eq_refl)).
Defined.

Lemma setting_precedence_witness :
  let self := Generator (VDict [])  (VDict [])
                (VDict [(KStr "directory", VStr "out/"); (KStr "format", VStr "csv")]) in
  od_wf [(KStr "format", VStr "tsv")]
  ∧ ∃ o, effective_output self
           (VDict [(KStr "output", VDict [(KStr "format", VStr "tsv")])])
         = Ok (VDict o)
         ∧ py_get (VDict o) "format" (VStr "csv") = Ok (VStr "tsv")
         ∧ py_get (VDict o) "directory" (VStr "output/") = Ok (VStr "out/").
Proof.
  intros self.
  assert (od_wf [(KStr "format", VStr "tsv")]) as Hl.
  { unfold od_wf. simpl. refine (bool_decide_unpack _ _). vm_compute. exact I. }
  split; [exact Hl|].
  destruct (proj1 (proj1 (setting_precedence self
                            [(KStr "output", VDict [(KStr "format", VStr "tsv")])])
                     _ eq_refl) _ eq_refl Hl) as (o & Ho & Hget).
  exists o. split; [exact Ho|]. split; apply Hget.
Defined.

Lemma skeleton_constructor_is_laxer_witness :
  _load_config Demo.env_null "config/config.yml" = Ok VNone
  ∧ __init__ Demo.env_null "config/config.yml" = Raise AttributeError
  ∧ Skeleton.__init__ Demo.env_null "config/config.yml"
    = Ok (Skeleton.Generator VNone)
  ∧ Skeleton.main Demo.env_null []
    = Ok [Skeleton.PFaker; Skeleton.PYaml; Skeleton.POs].
Proof.
  split; [reflexivity|]. split; [reflexivity|].
  destruct (skeleton_constructor_is_laxer (E := Demo.env_null)
              "config/config.yml") as (_ & Hinit & Hmain).
  split; [exact (Hinit VNone eq_refl) | exact (Hmain VNone [] eq_refl)].
Defined.
